(** * AI_paper_blog: the content generator, embedded and verified

    A shallow embedding of the Python sources under [content-generator/]:
    [arxiv_fetcher.py], [enhanced_arxiv_fetcher.py], [article_generator.py],
    [content_manager.py], [blog_automation.py] and [daily_automation.py],
    followed by the properties proved of them, C1 to C10.

    Conventions of the embedding.
    - A Python [str] is a list of characters.  Characters are the code
      points below 256, carried by [ascii]; the classifications used by
      [str.isspace], [str.lower] and the regular-expression class [\w] are
      the Unicode ones restricted to that range.
    - A Python [int] is a [Z].
    - A [dict] with a fixed set of keys is a record.  A key that every
      producer in the repository sets is a plain field; a key that only some
      producers set is an [option] field, and subscripting it when absent
      raises [KeyError].
    - A Python [set] of strings is a [gset].
    - A computation that can raise is a value of [exn + A]; the services the
      program talks to (the text-generation client, the HTTP endpoint, the
      clock) are parameters of the functions that use them. *)

From Stdlib Require Import ZArith Ascii String.
From stdpp Require Import base tactics option list sorting gmap strings pretty.

Set Warnings "-register-all".

Local Open Scope Z_scope.

(** ** Python strings *)

Abbreviation pystr := (list ascii).

(** [py "abc"] is the Python literal ['abc']. *)
Definition py (s : string) : pystr := list_ascii_of_string s.

Definition chr (n : nat) : ascii := ascii_of_nat n.
Definition ord (c : ascii) : nat := nat_of_ascii c.

Definition ch_eqb (a b : ascii) : bool := Ascii.eqb a b.

(** [c.isspace()], which is also the class [\s] of [re] on [str] patterns:
    TAB..CR, FS..US, SPACE, NEL and NBSP. *)
Definition is_space (c : ascii) : bool :=
  let n := ord c in
  ((9 <=? n) && (n <=? 13))%nat || ((28 <=? n) && (n <=? 32))%nat
  || (n =? 133)%nat || (n =? 160)%nat.

(** The class [\w] of [re] on [str] patterns: alphanumeric or underscore. *)
Definition is_word (c : ascii) : bool :=
  let n := ord c in
  ((48 <=? n) && (n <=? 57))%nat          (* 0-9 *)
  || ((65 <=? n) && (n <=? 90))%nat       (* A-Z *)
  || (n =? 95)%nat                        (* _ *)
  || ((97 <=? n) && (n <=? 122))%nat      (* a-z *)
  || (n =? 170)%nat || (n =? 178)%nat || (n =? 179)%nat || (n =? 181)%nat
  || (n =? 185)%nat || (n =? 186)%nat
  || ((188 <=? n) && (n <=? 190))%nat
  || ((192 <=? n) && (n <=? 214))%nat
  || ((216 <=? n) && (n <=? 246))%nat
  || ((248 <=? n) && (n <=? 255))%nat.

(** [c.lower()] on one character. *)
Definition lower_char (c : ascii) : ascii :=
  let n := ord c in
  if ((65 <=? n) && (n <=? 90))%nat then chr (n + 32)
  else if ((192 <=? n) && (n <=? 214))%nat then chr (n + 32)
  else if ((216 <=? n) && (n <=? 222))%nat then chr (n + 32)
  else c.

(** [s.lower()] *)
Definition py_lower (s : pystr) : pystr := map lower_char s.

(** [s.startswith(p)] *)
Fixpoint is_prefix (p s : pystr) : bool :=
  match p, s with
  | [], _ => true
  | _ :: _, [] => false
  | a :: p', b :: s' => ch_eqb a b && is_prefix p' s'
  end.

(** [sub in s] *)
Fixpoint py_contains (sub s : pystr) : bool :=
  is_prefix sub s ||
  match s with
  | [] => false
  | _ :: r => py_contains sub r
  end.

(** [s.split(sep)] for a non-empty [sep]: the scan goes left to right and
    the occurrences of [sep] do not overlap.  [skip] counts the characters of
    an occurrence still to be passed over, [cur] is the piece being read,
    most recent character first. *)
Fixpoint split_go (sep : pystr) (skip : nat) (cur s : pystr) : list pystr :=
  match s with
  | [] => [reverse cur]
  | c :: r =>
      match skip with
      | S k => split_go sep k cur r
      | O =>
          if is_prefix sep s
          then reverse cur :: split_go sep (length sep - 1) [] r
          else split_go sep 0 (c :: cur) r
      end
  end.

Definition py_split (sep s : pystr) : list pystr := split_go sep 0 [] s.

(** [s.split()]: the maximal runs of non-space characters. *)
Fixpoint words_go (cur s : pystr) : list pystr :=
  match s with
  | [] => match cur with [] => [] | _ => [reverse cur] end
  | c :: r =>
      if is_space c
      then match cur with [] => words_go [] r | _ => reverse cur :: words_go [] r end
      else words_go (c :: cur) r
  end.

Definition py_words (s : pystr) : list pystr := words_go [] s.

(** [s.lstrip(chars)], [s.rstrip(chars)] and [s.strip(chars)] for the set of
    characters recognised by [f]. *)
Fixpoint lstrip_by (f : ascii -> bool) (s : pystr) : pystr :=
  match s with
  | [] => []
  | c :: r => if f c then lstrip_by f r else s
  end.

Fixpoint rstrip_by (f : ascii -> bool) (s : pystr) : pystr :=
  match s with
  | [] => []
  | c :: r =>
      match rstrip_by f r with
      | [] => if f c then [] else [c]
      | r' => c :: r'
      end
  end.

Definition strip_by (f : ascii -> bool) (s : pystr) : pystr :=
  rstrip_by f (lstrip_by f s).

(** [s.strip()] *)
Definition py_strip (s : pystr) : pystr := strip_by is_space s.

(** [l[i]] for a list, with Python's negative indices. *)
Definition py_index {A} (l : list A) (i : Z) : option A :=
  if i <? 0 then
    (if 0 <=? Z.of_nat (length l) + i then l !! Z.to_nat (Z.of_nat (length l) + i)
     else None)
  else l !! Z.to_nat i.

(** [l[:n]], with Python's negative bounds. *)
Definition py_slice_to {A} (l : list A) (n : Z) : list A :=
  if n <? 0 then take (Z.to_nat (Z.of_nat (length l) + n)) l
  else take (Z.to_nat n) l.

(** [str(n)] for an integer. *)
Definition py_str_int (n : Z) : pystr :=
  if n <? 0 then py "-" ++ py (pretty (Z.to_N (- n)))
  else py (pretty (Z.to_N n)).

(** ** Exceptions *)

Inductive exn : Type :=
  | KeyError (key : pystr)
  | AttributeError (msg : pystr)
  | TypeError (msg : pystr)
  | OtherError (msg : pystr).

(** [str(e)] as it appears in an f-string: a [KeyError] prints the [repr] of
    its key. *)
Definition exn_str (e : exn) : pystr :=
  match e with
  | KeyError k => py "'" ++ k ++ py "'"
  | AttributeError m => m
  | TypeError m => m
  | OtherError m => m
  end.

Definition raises (A : Type) : Type := exn + A.

Definition ok {A} (x : A) : raises A := inr x.
Definition raise {A} (e : exn) : raises A := inl e.

Definition bind_raises {A B} (m : raises A) (k : A -> raises B) : raises B :=
  match m with
  | inl e => inl e
  | inr x => k x
  end.

Global Instance raises_ret : MRet raises := λ A x, inr x.
Global Instance raises_bind : MBind raises := λ A B k m, bind_raises m k.

(** [d[key]] on an optional key. *)
Definition getitem {A} (key : string) (v : option A) : raises A :=
  match v with
  | Some x => ok x
  | None => raise (KeyError (py key))
  end.

(** ** list.sort(key=..., reverse=True)

    Python's sort is stable, and stays so under [reverse=True]: items with
    equal keys keep their original order.  The model inserts each item, from
    the last to the first, in front of the first item whose key is not
    greater.  [leb] is the order [<=] of the keys. *)

Section PySort.
Context {A K : Type} (leb : K -> K -> bool) (key : A -> K).

Fixpoint insert_desc (x : A) (l : list A) : list A :=
  match l with
  | [] => [x]
  | y :: r => if leb (key y) (key x) then x :: l else y :: insert_desc x r
  end.

Definition py_sort_desc (l : list A) : list A := foldr insert_desc [] l.

(** [x] may stand before [y] in a list sorted in descending order. *)
Definition desc (x y : A) : Prop := leb (key y) (key x) = true.

(** The items whose key is equal to [v]. *)
Definition same_key (v : K) (x : A) : bool := leb (key x) v && leb v (key x).
End PySort.

(** [a <= b] on strings: lexicographic, by code point. *)
Fixpoint str_leb (a b : pystr) : bool :=
  match a, b with
  | [], _ => true
  | _ :: _, [] => false
  | x :: a', y :: b' =>
      if (ord x <? ord y)%nat then true
      else if (ord y <? ord x)%nat then false
      else str_leb a' b'
  end.

(** ** Paper records

    The dictionaries built by
    [ArxivFetcher.classic_papers] and by
    [EnhancedArxivFetcher.search_recent_papers].  All of them set ['id'],
    ['title'], ['authors'], ['published'] and ['category']; the abstract is
    under ['abstract'] in the first and under ['summary'] in the second,
    which alone sets ['relevance_score'] and ['categories']. *)

Record Paper : Type := {
  p_id : pystr;
  p_title : pystr;
  p_authors : list pystr;
  p_published : pystr;
  p_category : pystr;
  p_summary : option pystr;
  p_abstract : option pystr;
  p_url : option pystr;
  p_relevance_score : option Z;
  p_categories : option (list pystr)
}.

(** [x.get('relevance_score', 0)] *)
Definition relevance_score (x : Paper) : Z := default 0 (p_relevance_score x).

(** ** arxiv_fetcher.py: the seed papers *)

(** [ArxivFetcher.classic_papers[0]]: the abstract is under ['abstract'],
    and there is no ['summary']. *)
Definition classic_attention : Paper :=
  {| p_id := py "1706.03762";
     p_title := py "Attention Is All You Need";
     p_authors :=
       [ py "Ashish Vaswani"; py "Noam Shazeer"; py "Niki Parmar";
         py "Jakob Uszkoreit"; py "Llion Jones"; py "Aidan N. Gomez";
         py "Lukasz Kaiser"; py "Illia Polosukhin" ];
     p_published := py "2017-06-12";
     p_category := py "foundation-models";
     p_summary := None;
     p_abstract := Some (py "The dominant sequence transduction models are based on complex recurrent or convolutional neural networks that include an encoder and a decoder. The best performing models also connect the encoder and decoder through an attention mechanism. We propose a new simple network architecture, the Transformer, based solely on attention mechanisms, dispensing with recurrence and convolutions entirely.");
     p_url := Some (py "https://arxiv.org/abs/1706.03762");
     p_relevance_score := None;
     p_categories := None |}.

(** The other four records of [ArxivFetcher.classic_papers]. *)
Definition classic_imagenet : Paper :=
  {| p_id := py "1207.0580";
     p_title := py "ImageNet Classification with Deep Convolutional Neural Networks";
     p_authors := [ py "Alex Krizhevsky"; py "Ilya Sutskever"; py "Geoffrey E. Hinton" ];
     p_published := py "2012-07-03";
     p_category := py "basic-concepts";
     p_summary := None;
     p_abstract := Some (py "We trained a large, deep convolutional neural network to classify the 1.2 million high-resolution images in the ImageNet LSVRC-2010 contest into the 1000 different classes. On the test data, we achieved top-1 and top-5 error rates of 37.5% and 17.0% which is considerably better than the previous state-of-the-art.");
     p_url := Some (py "https://arxiv.org/abs/1207.0580");
     p_relevance_score := None;
     p_categories := None |}.

Definition classic_gan : Paper :=
  {| p_id := py "1406.2661";
     p_title := py "Generative Adversarial Networks";
     p_authors := [ py "Ian J. Goodfellow"; py "Jean Pouget-Abadie"; py "Mehdi Mirza"; py "Bing Xu"; py "David Warde-Farley"; py "Sherjil Ozair"; py "Aaron Courville"; py "Yoshua Bengio" ];
     p_published := py "2014-06-10";
     p_category := py "generative-models";
     p_summary := None;
     p_abstract := Some (py "We propose a new framework for estimating generative models via an adversarial process, in which we simultaneously train two models: a generative model G that captures the data distribution, and a discriminative model D that estimates the probability that a sample came from the training data rather than G.");
     p_url := Some (py "https://arxiv.org/abs/1406.2661");
     p_relevance_score := None;
     p_categories := None |}.

Definition classic_bert : Paper :=
  {| p_id := py "1810.04805";
     p_title := py "BERT: Pre-training of Deep Bidirectional Transformers for Language Understanding";
     p_authors := [ py "Jacob Devlin"; py "Ming-Wei Chang"; py "Kenton Lee"; py "Kristina Toutanova" ];
     p_published := py "2018-10-11";
     p_category := py "foundation-models";
     p_summary := None;
     p_abstract := Some (py "We introduce a new language representation model called BERT, which stands for Bidirectional Encoder Representations from Transformers. Unlike recent language representation models, BERT is designed to pre-train deep bidirectional representations from unlabeled text by jointly conditioning on both left and right context in all layers.");
     p_url := Some (py "https://arxiv.org/abs/1810.04805");
     p_relevance_score := None;
     p_categories := None |}.

Definition classic_gpt2 : Paper :=
  {| p_id := py "1909.11942";
     p_title := py "Language Models are Unsupervised Multitask Learners";
     p_authors := [ py "Alec Radford"; py "Jeffrey Wu"; py "Rewon Child"; py "David Luan"; py "Dario Amodei"; py "Ilya Sutskever" ];
     p_published := py "2019-02-14";
     p_category := py "foundation-models";
     p_summary := None;
     p_abstract := Some (py "Natural language processing tasks, such as question answering, machine translation, reading comprehension, and summarization, are typically approached with supervised learning on taskspecific datasets. We demonstrate that language models begin to learn these tasks without any explicit supervision when trained on a new dataset of millions of webpages called WebText.");
     p_url := Some (py "https://arxiv.org/abs/1909.11942");
     p_relevance_score := None;
     p_categories := None |}.

(** [ArxivFetcher.classic_papers] and [get_classic_papers] *)
Definition classic_papers : list Paper :=
  [classic_attention; classic_imagenet; classic_gan; classic_bert; classic_gpt2].

(** ** arxiv_fetcher.py: the search *)

(** An [xml.etree.ElementTree.Element]: its tag in expanded form, its
    attributes, its text and its children. *)
Inductive Element : Type :=
  | Elem (tag : pystr) (attrib : list (pystr * pystr)) (text : option pystr)
         (children : list Element).

Definition el_tag (e : Element) : pystr := let 'Elem t _ _ _ := e in t.
Definition el_attrib (e : Element) : list (pystr * pystr) := let 'Elem _ a _ _ := e in a.
Definition el_text (e : Element) : option pystr := let 'Elem _ _ t _ := e in t.
Definition el_children (e : Element) : list Element := let 'Elem _ _ _ c := e in c.

(** The namespace map [ns] of [search_papers], applied to a prefixed name
    such as ['atom:title']. *)
Definition atom (name : string) : pystr := py "{http://www.w3.org/2005/Atom}" ++ py name.

(** [e.findall(path, ns)] and [e.find(path, ns)] for a path that is one
    prefixed name: the children with that tag, and the first of them. *)
Definition findall (e : Element) (tag : pystr) : list Element :=
  filter (λ c, el_tag c = tag) (el_children e).

Definition find (e : Element) (tag : pystr) : option Element :=
  head (findall e tag).

(** [x.attr] where [x] may be [None]. *)
Definition attr_of {A B} (what : string) (x : option A) (f : A → B) : raises B :=
  match x with
  | Some x => mret (f x)
  | None => raise (AttributeError
              (py "'NoneType' object has no attribute '" ++ py what ++ py "'"))
  end.

(** [e.find(tag, ns).text] *)
Definition find_text (e : Element) (tag : pystr) : raises (option pystr) :=
  attr_of "text" (find e tag) el_text.

(** [s.replace('\n', ' ')] *)
Definition replace_newlines (s : pystr) : pystr :=
  map (λ c, if ch_eqb c (chr 10) then " "%char else c) s.

(** [e.get(key)] on the attributes of an element. *)
Fixpoint attrib_get (a : list (pystr * pystr)) (key : pystr) : option pystr :=
  match a with
  | [] => None
  | (k, v) :: rest => if decide (k = key) then Some v else attrib_get rest key
  end.

(** [ArxivFetcher._map_category]; a category read from the feed may be
    [None]. *)
Fixpoint _map_category (arxiv_categories : list (option pystr)) : pystr :=
  let category_mapping :=
    [ (py "cs.LG", py "foundation-models");
      (py "cs.CL", py "foundation-models");
      (py "cs.CV", py "basic-concepts");
      (py "cs.AI", py "foundation-models");
      (py "cs.NE", py "basic-concepts");
      (py "stat.ML", py "foundation-models");
      (py "cs.RO", py "applications");
      (py "cs.HC", py "applications");
      (py "q-bio", py "applications") ] in
  match arxiv_categories with
  | [] => py "basic-concepts"
  | cat :: rest =>
      match cat ≫= attrib_get category_mapping with
      | Some blog_category => blog_category
      | None => _map_category rest
      end
  end.

(** The dictionary returned by [ArxivFetcher._parse_entry]. *)
Record ParsedPaper : Type := {
  pp_id : pystr;
  pp_title : pystr;
  pp_authors : list (option pystr);
  pp_abstract : pystr;
  pp_published : pystr;
  pp_category : pystr;
  pp_url : pystr;
  pp_arxiv_categories : list (option pystr)
}.

(** The [try] block of [ArxivFetcher._parse_entry]. *)
Definition parse_entry_body (entry : Element) : raises ParsedPaper :=
  title_text ← find_text entry (atom "title");
  title ← attr_of "strip" title_text (λ t, replace_newlines (py_strip t));
  abstract_text ← find_text entry (atom "summary");
  abstract ← attr_of "strip" abstract_text (λ t, replace_newlines (py_strip t));
  published_text ← find_text entry (atom "published");
  published ←
    match published_text with
    | Some t => mret (py_slice_to t 10)
    | None => raise (TypeError (py "'NoneType' object is not subscriptable"))
    end;
  arxiv_url ← find_text entry (atom "id");
  pieces ← attr_of "split" arxiv_url (py_split (py "/"));
  let arxiv_id := default [] (py_index pieces (-1)) in
  authors ← mapM (λ author, find_text author (atom "name"))
               (findall entry (atom "author"));
  let categories :=
    (λ category, attrib_get (el_attrib category) (py "term"))
      <$> findall entry (atom "category") in
  let blog_category := _map_category categories in
  mret {| pp_id := arxiv_id;
          pp_title := title;
          pp_authors := authors;
          pp_abstract := abstract;
          pp_published := published;
          pp_category := blog_category;
          pp_url := py "https://arxiv.org/abs/" ++ arxiv_id;
          pp_arxiv_categories := categories |}.

(** [ArxivFetcher._parse_entry]: any exception gives [None]. *)
Definition _parse_entry (entry : Element) : option ParsedPaper :=
  match parse_entry_body entry with
  | inl _ => None
  | inr paper => Some paper
  end.

(** What [requests.get] hands back: the exception that
    [raise_for_status] would raise, if the status is an error, and the
    body. *)
Record Response : Type := {
  status_error : option exn;
  content : pystr
}.

(** [response.raise_for_status()] *)
Definition raise_for_status (response : Response) : raises () :=
  match status_error response with
  | Some e => raise e
  | None => mret ()
  end.

Section ArxivFetcher.
(** The network: [requests.get(url, params=params)] returns a response
    or raises. *)
Variable requests_get : pystr → list (pystr * pystr) → raises Response.
(** The XML parser [ET.fromstring]: the root element, or a parse error. *)
Variable fromstring : pystr → raises Element.

Definition base_url : pystr := py "http://export.arxiv.org/api/query".

(** The dictionary [params] of [search_papers]; [category] is [None] or a
    string, and an empty string counts as absent. *)
Definition search_params (query : pystr) (max_results : Z) (category : option pystr)
    : list (pystr * pystr) :=
  let search_query :=
    match category with
    | Some (c :: cs) => py "cat:" ++ (c :: cs) ++ py " AND " ++ query
    | _ => query
    end in
  [ (py "search_query", search_query);
    (py "start", py_str_int 0);
    (py "max_results", py_str_int max_results);
    (py "sortBy", py "relevance");
    (py "sortOrder", py "descending") ].

(** The [try] block of [ArxivFetcher.search_papers]. *)
Definition search_papers_body (query : pystr) (max_results : Z)
    (category : option pystr) : raises (list ParsedPaper) :=
  response ← requests_get base_url (search_params query max_results category);
  _ ← raise_for_status response;
  root ← fromstring (content response);
  mret (omap _parse_entry (findall root (atom "entry"))).

(** [ArxivFetcher.search_papers]: any exception gives the empty list. *)
Definition search_papers (query : pystr) (max_results : Z)
    (category : option pystr) : list ParsedPaper :=
  match search_papers_body query max_results category with
  | inl _ => []
  | inr papers => papers
  end.
End ArxivFetcher.

(** ** enhanced_arxiv_fetcher.py *)

Module EnhancedArxivFetcher.

(** A [datetime] as the fetcher uses it: the instant, in microseconds, that
    comparisons and differences of the naive value see, and the text of
    [isoformat()]. *)
Record DateTime : Type := {
  dt_micros : Z;
  dt_iso : pystr
}.

(** An [arxiv.Result], by the attributes the fetcher reads. *)
Record ArxivResult : Type := {
  r_entry_id : pystr;
  r_title : pystr;
  r_authors : list pystr;
  r_summary : pystr;
  r_published : DateTime;
  r_updated : option DateTime;
  r_categories : list pystr;
  r_pdf_url : option pystr
}.

Definition micros_per_day : Z := 86400 * 1000000.

(** [x in l] for a list of strings. *)
Definition py_in (x : pystr) (l : list pystr) : bool := bool_decide (x ∈ l).

(** [EnhancedArxivFetcher._calculate_relevance_score]; [now] is the reading
    of [datetime.now()] made in it. *)
Definition _calculate_relevance_score (now : Z) (result : ArxivResult) : Z :=
  let high_value_categories := [py "cs.AI"; py "cs.LG"; py "cs.CV"; py "cs.CL"] in
  let medium_value_categories := [py "cs.NE"; py "stat.ML"; py "cs.IR"] in
  let score := 0 in
  let score :=
    foldl (λ score category,
             if py_in category high_value_categories then score + 10
             else if py_in category medium_value_categories then score + 5
             else score)
          score (r_categories result) in
  let important_keywords :=
    [ py "transformer"; py "attention"; py "neural network"; py "deep learning";
      py "machine learning"; py "artificial intelligence"; py "generative";
      py "classification"; py "detection"; py "segmentation"; py "language model";
      py "computer vision"; py "natural language processing";
      py "reinforcement learning"; py "diffusion"; py "llm";
      py "large language model"; py "multimodal"; py "vision transformer" ] in
  let title_lower := py_lower (r_title result) in
  let summary_lower := py_lower (r_summary result) in
  let score :=
    foldl (λ score keyword,
             if py_contains keyword title_lower then score + 3
             else if py_contains keyword summary_lower then score + 1
             else score)
          score important_keywords in
  let days_old := (now - dt_micros (r_published result)) / micros_per_day in
  let score :=
    if days_old <=? 1 then score + 5
    else if days_old <=? 7 then score + 3
    else if days_old <=? 30 then score + 1
    else score in
  let score :=
    if (1000 <? length (r_summary result))%nat then score + 2
    else if (500 <? length (r_summary result))%nat then score + 1
    else score in
  score.

(** [EnhancedArxivFetcher._map_category] *)
Fixpoint _map_category (arxiv_categories : list pystr) : pystr :=
  let category_mapping :=
    [ (py "cs.LG", py "foundation-models");
      (py "cs.CL", py "foundation-models");
      (py "cs.CV", py "basic-concepts");
      (py "cs.AI", py "foundation-models");
      (py "cs.NE", py "basic-concepts");
      (py "stat.ML", py "foundation-models");
      (py "cs.RO", py "ai-applications");
      (py "cs.HC", py "ai-applications");
      (py "q-bio", py "ai-applications") ] in
  match arxiv_categories with
  | [] => py "basic-concepts"
  | cat :: rest =>
      match attrib_get category_mapping cat with
      | Some blog_category => blog_category
      | None => _map_category rest
      end
  end.

(** The dictionary [paper_data] of [search_recent_papers].  Its keys
    ['updated'], ['pdf_url'] and ['entry_id'], which nothing reads, are left
    out of [Paper]. *)
Definition paper_data (now : Z) (result : ArxivResult) : Paper :=
  {| p_id := default [] (py_index (py_split (py "/") (r_entry_id result)) (-1));
     p_title := r_title result;
     p_authors := r_authors result;
     p_published := dt_iso (r_published result);
     p_category := _map_category (r_categories result);
     p_summary := Some (r_summary result);
     p_abstract := None;
     p_url := None;
     p_relevance_score := Some (_calculate_relevance_score now result);
     p_categories := Some (r_categories result) |}.

(** The first paper of each id, in order: the dictionary [unique_papers]
    and its [values()]. *)
Fixpoint unique_by_id (seen : gset pystr) (papers : list Paper) : list Paper :=
  match papers with
  | [] => []
  | paper :: rest =>
      if decide (p_id paper ∈ seen) then unique_by_id seen rest
      else paper :: unique_by_id ({[ p_id paper ]} ∪ seen) rest
  end.

Section Search.
(** Iterating over [arxiv.Search(query, max_results, ...).results()]: the
  results it yields, each with the clock reading made while it is scored,
  and the exception that ends the iteration, if one does. *)
Variable arxiv_search : pystr → Z → list (ArxivResult * Z) * option exn.
(** [datetime.now()] at the start of the call. *)
Variable end_date : Z.

(** One turn of the loop over [ai_ml_queries]: what the [try] block appends
  to [all_papers] before it ends or raises. *)
Definition papers_of_query (search_query : pystr) (max_results days_back : Z) : list Paper :=
let start_date := end_date - days_back * micros_per_day in
let relevant_categories :=
  [py "cs.AI"; py "cs.LG"; py "cs.CV"; py "cs.CL"; py "cs.NE"; py "stat.ML"] in
omap (λ '(result, now),
        if existsb (λ cat, py_in cat (r_categories result)) relevant_categories
           && (start_date <=? dt_micros (r_published result))
        then Some (paper_data now result)
        else None)
     (arxiv_search search_query (max_results / 3 + 5)).1.

(** [EnhancedArxivFetcher.search_recent_papers] *)
Definition search_recent_papers (query : pystr) (max_results days_back : Z) : list Paper :=
let ai_ml_queries :=
  [ py "(" ++ query ++ py ")";
    py "(artificial intelligence OR machine learning OR deep learning OR neural network OR transformer OR attention mechanism)";
    py "(computer vision OR natural language processing OR reinforcement learning OR generative model)" ] in
let all_papers :=
  mjoin ((λ search_query, papers_of_query search_query max_results days_back)
           <$> ai_ml_queries) in
let unique_papers := unique_by_id ∅ all_papers in
let sorted_papers := py_sort_desc Z.leb relevance_score unique_papers in
py_slice_to sorted_papers max_results.
End Search.

End EnhancedArxivFetcher.

(** ** article_generator.py *)

(** The dictionary returned by [ArticleGenerator.generate_article].  The
    last three keys are absent from it; they are added by
    [DailyAutomation.generate_articles_for_papers]. *)
Record Content : Type := {
  c_background : pystr;
  c_methodology : pystr;
  c_results : pystr;
  c_significance : pystr
}.

Record ConceptExplanation : Type := {
  ce_title : pystr;
  ce_content : pystr
}.

Record Article : Type := {
  a_title : pystr;
  a_subtitle : pystr;
  a_category : pystr;
  a_authors : list pystr;
  a_paper_url : pystr;
  a_read_time : pystr;
  a_publish_date : pystr;
  a_concept_explained : pystr;
  a_content : Content;
  a_concept_explanation : ConceptExplanation;
  a_summary : pystr;
  a_paper_id : option pystr;
  a_arxiv_url : option pystr;
  a_categories : option (list pystr)
}.

(** [d.get(key, default)] on a dictionary given as its list of items. *)
Fixpoint dict_get (d : list (pystr * pystr)) (key default : pystr) : pystr :=
  match d with
  | [] => default
  | (k, v) :: rest => if decide (k = key) then v else dict_get rest key default
  end.

(** [ArticleGenerator._format_category] *)
Definition _format_category (category_slug : pystr) : pystr :=
  let category_map :=
    [ (py "foundation-models", py "Foundation Models");
      (py "generative-models", py "Generative Models");
      (py "optimization", py "Optimization");
      (py "applications", py "Applications");
      (py "basic-concepts", py "Basic Concepts") ] in
  dict_get category_map category_slug (py "Basic Concepts").

(** The double quote. *)
Definition dq : pystr := [chr 34].

(** The f-string [prompt] of [ArticleGenerator._generate_background]. *)
Definition background_prompt (title summary : pystr) : pystr :=
  py "
        Write a beginner-friendly explanation of why the research in this paper was needed. 
        
        Paper Title: "
  ++ title
  ++ py "
        Abstract: "
  ++ summary
  ++ py "
        
        Requirements:
        - Explain in simple terms what problems existed before this research
        - Use analogies and everyday examples where possible
        - Avoid technical jargon
        - Write 2-3 paragraphs
        - Target audience: university students new to AI
        
        Focus on the motivation and context, not the solution.
        ".

(** The f-string [prompt] of [ArticleGenerator._generate_methodology]. *)
Definition methodology_prompt (title summary : pystr) : pystr :=
  py "
        Explain the key innovation and methodology of this research paper in beginner-friendly terms.
        
        Paper Title: "
  ++ title
  ++ py "
        Abstract: "
  ++ summary
  ++ py "
        
        Requirements:
        - Break down the main approach into simple steps
        - Use analogies and metaphors to explain complex concepts
        - Avoid mathematical formulas and technical details
        - Write 3-4 paragraphs
        - Use numbered lists or bullet points where helpful
        - Target audience: university students new to AI
        
        Focus on WHAT they did and HOW it works conceptually, not the technical implementation.
        ".

(** The f-string [prompt] of [ArticleGenerator._generate_results]. *)
Definition results_prompt (title summary : pystr) : pystr :=
  py "
        Explain the results and achievements of this research paper in beginner-friendly terms.
        
        Paper Title: "
  ++ title
  ++ py "
        Abstract: "
  ++ summary
  ++ py "
        
        Requirements:
        - Explain what the research achieved
        - Compare to previous methods if relevant
        - Mention specific improvements or breakthroughs
        - Write 2-3 paragraphs
        - Use simple language and avoid technical metrics
        - Target audience: university students new to AI
        
        Focus on the practical impact and what made this work significant.
        ".

(** The f-string [prompt] of [ArticleGenerator._generate_significance]. *)
Definition significance_prompt (title summary published : pystr) : pystr :=
  py "
        Explain why this research paper matters today and its long-term significance in AI.
        
        Paper Title: "
  ++ title
  ++ py "
        Abstract: "
  ++ summary
  ++ py "
        Published: "
  ++ published
  ++ py "
        
        Requirements:
        - Explain how this research influenced later developments
        - Mention specific applications or systems that use this work
        - Connect to modern AI systems people know (ChatGPT, etc.)
        - Write 2-3 paragraphs
        - Use simple language
        - Target audience: university students new to AI
        
        Focus on the lasting impact and why someone should care about this paper today.
        ".

(** The f-string [concept_prompt] of [ArticleGenerator._generate_concept_explanation]. *)
Definition concept_prompt (title summary : pystr) : pystr :=
  py "
        Identify the single most important technical concept introduced or used in this paper that a beginner should understand.
        
        Paper Title: "
  ++ title
  ++ py "
        Abstract: "
  ++ summary
  ++ py "
        
        Return only the name of the concept (2-4 words maximum). Examples:
        - "
  ++ dq
  ++ py "Self-Attention Mechanism"
  ++ dq
  ++ py "
        - "
  ++ dq
  ++ py "Convolutional Neural Networks"
  ++ dq
  ++ py "
        - "
  ++ dq
  ++ py "Adversarial Training"
  ++ dq
  ++ py "
        - "
  ++ dq
  ++ py "Bidirectional Context"
  ++ dq
  ++ py "
        ".

(** The f-string [explanation_prompt] of [ArticleGenerator._generate_concept_explanation]. *)
Definition explanation_prompt (concept_title title summary : pystr) : pystr :=
  py "
        Provide a detailed, beginner-friendly explanation of "
  ++ dq
  ++ concept_title
  ++ dq
  ++ py " as it relates to the paper "
  ++ dq
  ++ title
  ++ dq
  ++ py ".
        
        Paper Abstract: "
  ++ summary
  ++ py "
        
        Requirements:
        - Start with a simple analogy or real-world example
        - Explain how it works step by step
        - Use concrete examples
        - Explain why this concept is important
        - Write 4-5 paragraphs
        - Use simple language and avoid jargon
        - Target audience: university students new to AI
        - Include practical applications where relevant
        
        Make this explanation comprehensive enough that a beginner could understand and explain the concept to someone else.
        ".

(** The f-string [prompt] of [ArticleGenerator._generate_summary]. *)
Definition summary_prompt (title summary : pystr) : pystr :=
  py "
        Write a single, clear sentence that summarizes the main contribution of this research paper.
        
        Paper Title: "
  ++ title
  ++ py "
        Abstract: "
  ++ summary
  ++ py "
        
        Requirements:
        - One sentence only
        - Simple language
        - Capture the essence of what this paper achieved
        - Target audience: university students new to AI
        
        Example format: "
  ++ dq
  ++ py "This paper introduced [innovation] which [impact], becoming the foundation for [applications]."
  ++ dq
  ++ py "
        ".

(** The f-string [prompt] of [ArticleGenerator._generate_subtitle]. *)
Definition subtitle_prompt (title summary : pystr) : pystr :=
  py "
        Create an engaging subtitle for a beginner-friendly explanation of this research paper.
        
        Paper Title: "
  ++ title
  ++ py "
        Abstract: "
  ++ summary
  ++ py "
        
        Requirements:
        - 5-10 words
        - Capture the main innovation or impact
        - Make it appealing to beginners
        - Avoid technical jargon
        
        Examples:
        - "
  ++ dq
  ++ py "How the Transformer Architecture Revolutionized AI"
  ++ dq
  ++ py "
        - "
  ++ dq
  ++ py "The Deep Learning Breakthrough That Started It All"
  ++ dq
  ++ py "
        - "
  ++ dq
  ++ py "Two Neural Networks Competing to Create Reality"
  ++ dq
  ++ py "
        ".

(** *** The text-generation service

    One call of [self.client.chat.completions.create] followed by
    [response.choices[0].message.content]: either the content arrives, or
    something in the [try] block raises an exception, of which [str(e)] is
    kept.  The service is any function of the number of calls made before
    and of the request. *)

Inductive completion : Type :=
  | Returned (text : pystr)
  | Raised (e : pystr).

Record ChatRequest : Type := {
  model : pystr;
  messages : list (pystr * pystr)   (* role, content *)
}.

Definition system_content : pystr :=
  py "You are an expert at explaining complex AI research papers in simple, beginner-friendly terms. You use analogies, examples, and clear language to make technical concepts accessible to university students new to AI.".

Definition chat_request (prompt : pystr) : ChatRequest :=
  {| model := py "gpt-5-nano";
     messages := [ (py "system", system_content); (py "user", prompt) ] |}.

Abbreviation Client := (nat → ChatRequest → completion).

(** Computations of the generator: they read the number of calls made so
    far, may raise, and return the new number of calls. *)
Definition Gen (A : Type) : Type := nat → raises (A * nat).

Global Instance gen_ret : MRet Gen := λ A x n, ok (x, n).

Global Instance gen_bind : MBind Gen := λ A B k m n,
  match m n with
  | inl e => inl e
  | inr (x, n') => k x n'
  end.

Definition gen_lift {A} (r : raises A) : Gen A :=
  λ n, match r with
       | inl e => inl e
       | inr x => ok (x, n)
       end.

Section ArticleGenerator.
Variable client : Client.
(** [datetime.now().strftime("%Y-%m-%d")] at the time of the call. *)
Variable today : pystr.

(** The text an exception leaves in place of the generated one. *)
Definition error_placeholder (e : pystr) : pystr :=
  py "Error generating content: " ++ e.

(** [ArticleGenerator._call_openai] *)
Definition _call_openai (prompt : pystr) : Gen pystr :=
  λ n, ok (match client n (chat_request prompt) with
           | Returned text => py_strip text
           | Raised e => error_placeholder e
           end, S n).

(** [ArticleGenerator._generate_background] *)
Definition _generate_background (paper : Paper) : Gen pystr :=
  summary ← gen_lift (getitem "summary" (p_summary paper));
  _call_openai (background_prompt (p_title paper) summary).

(** [ArticleGenerator._generate_methodology] *)
Definition _generate_methodology (paper : Paper) : Gen pystr :=
  summary ← gen_lift (getitem "summary" (p_summary paper));
  _call_openai (methodology_prompt (p_title paper) summary).

(** [ArticleGenerator._generate_results] *)
Definition _generate_results (paper : Paper) : Gen pystr :=
  summary ← gen_lift (getitem "summary" (p_summary paper));
  _call_openai (results_prompt (p_title paper) summary).

(** [ArticleGenerator._generate_significance] *)
Definition _generate_significance (paper : Paper) : Gen pystr :=
  summary ← gen_lift (getitem "summary" (p_summary paper));
  _call_openai (significance_prompt (p_title paper) summary (p_published paper)).

(** [ArticleGenerator._generate_concept_explanation] *)
Definition _generate_concept_explanation (paper : Paper) : Gen (pystr * pystr) :=
  summary ← gen_lift (getitem "summary" (p_summary paper));
  answer ← _call_openai (concept_prompt (p_title paper) summary);
  let concept_title := py_strip answer in
  summary ← gen_lift (getitem "summary" (p_summary paper));
  concept_content ←
    _call_openai (explanation_prompt concept_title (p_title paper) summary);
  mret (concept_title, concept_content).

(** [ArticleGenerator._generate_summary] *)
Definition _generate_summary (paper : Paper) : Gen pystr :=
  summary ← gen_lift (getitem "summary" (p_summary paper));
  answer ← _call_openai (summary_prompt (p_title paper) summary);
  mret (py_strip answer).

(** [ArticleGenerator._generate_subtitle] *)
Definition _generate_subtitle (paper : Paper) : Gen pystr :=
  summary ← gen_lift (getitem "summary" (p_summary paper));
  answer ← _call_openai (subtitle_prompt (p_title paper) summary);
  mret (py_strip answer).

(** [round(n / d)] for integers [n] and [d > 0]: the quotient is rounded to
    the nearest integer, a tie going to the even one.  The float division
    of the source is exact on a tie and elsewhere off by far less than the
    distance [1/(2d)] to the nearest tie, for every [n] below [2^45] and
    [d = 200]. *)
Definition py_round_div (n d : Z) : Z :=
  let q := n / d in
  let r := n mod d in
  if 2 * r <? d then q
  else if d <? 2 * r then q + 1
  else if Z.even q then q else q + 1.

(** Lines 66-68 of [generate_article]: the words of the five texts joined
    end to end, at 200 words per minute. *)
Definition total_words (background methodology results significance concept_content : pystr) : Z :=
  Z.of_nat (length (py_words
    (background ++ methodology ++ results ++ significance ++ concept_content))).

Definition estimate_read_time
    (background methodology results significance concept_content : pystr) : Z :=
  Z.max 1 (py_round_div
    (total_words background methodology results significance concept_content) 200).

(** [ArticleGenerator.generate_article] *)
Definition generate_article (paper : Paper) : Gen Article :=
  background ← _generate_background paper;
  methodology ← _generate_methodology paper;
  results ← _generate_results paper;
  significance ← _generate_significance paper;
  '(concept_title, concept_content) ← _generate_concept_explanation paper;
  summary ← _generate_summary paper;
  let read_time :=
    estimate_read_time background methodology results significance concept_content in
  subtitle ← _generate_subtitle paper;
  mret
    {| a_title := py "Paper Explained: " ++ p_title paper ++ py " - A Beginner's Guide";
       a_subtitle := subtitle;
       a_category := _format_category (p_category paper);
       a_authors := p_authors paper;
       a_paper_url := py "https://arxiv.org/abs/" ++ p_id paper;
       a_read_time := py_str_int read_time ++ py " min read";
       a_publish_date := today;
       a_concept_explained := concept_title;
       a_content :=
         {| c_background := background;
            c_methodology := methodology;
            c_results := results;
            c_significance := significance |};
       a_concept_explanation :=
         {| ce_title :=
              py "Understanding " ++ concept_title ++ py ": The Heart of "
              ++ (if py_contains (py ":") (p_title paper)
                  then nth 0 (py_split (py ":") (p_title paper)) []
                  else p_title paper);
            ce_content := concept_content |};
       a_summary := summary;
       a_paper_id := None;
       a_arxiv_url := None;
       a_categories := None |}.
End ArticleGenerator.

(** ** content_manager.py *)

(** The dictionary [article_data] that [integrate_articles] builds for each
    article, an element of [articles.json]. *)
Record CorpusEntry : Type := {
  e_id : pystr;
  e_title : pystr;
  e_subtitle : pystr;
  e_category : pystr;
  e_categorySlug : pystr;
  e_authors : list pystr;
  e_paperUrl : pystr;
  e_readTime : pystr;
  e_publishDate : pystr;
  e_conceptExplained : pystr;
  e_content : Content;
  e_conceptExplanation : ConceptExplanation;
  e_summary : pystr;
  e_excerpt : pystr
}.

(** The four JavaScript texts that [_update_react_components] and the
    methods it calls write out.  They are constants of the source and are
    named here, not spelled out. *)
Inductive ReactSource : Type :=
  | data_loader_content
  | homepage_content
  | article_page_content
  | category_page_content.

Inductive FileContent : Type :=
  | ArticlesJson (entries : list CorpusEntry)
  | ArticleJson (article : Article)
  | SourceText (text : ReactSource).

(** The files, by path.  Where a definition does not say otherwise, the
    directories written into are taken to exist and writes to succeed. *)
Abbreviation filesystem := (gmap pystr FileContent).

(** [os.path.join(a, b)] on POSIX paths. *)
Definition path_join (a b : pystr) : pystr :=
  if is_prefix (py "/") b then b
  else match last a with
       | None => b
       | Some c => if ch_eqb c "/" then a ++ b else a ++ py "/" ++ b
       end.

Record ContentManager : Type := {
  blog_path : pystr;
  articles_dir : pystr
}.

(** [ContentManager.__init__] *)
Definition ContentManager_init (blog_path : pystr) : ContentManager :=
  {| blog_path := blog_path;
     articles_dir := path_join (path_join blog_path (py "src")) (py "data") |}.

Definition default_blog_path : pystr := py "/home/ubuntu/ai-paper-blog".

Definition is_dash (c : ascii) : bool := ch_eqb c "-".

(** [re.sub(r'[^\w\s-]', '', s)]: the characters outside the class are
    deleted. *)
Definition keeps_slug_char (c : ascii) : bool :=
  is_word c || is_space c || is_dash c.

Definition re_sub_delete_others (s : pystr) : pystr := List.filter keeps_slug_char s.

(** [re.sub(r'[-\s]+', '-', s)]: every maximal run of dashes and spaces
    becomes one dash.  A character of the class yields the dash when it is
    the last of its run. *)
Definition is_dash_or_space (c : ascii) : bool := is_dash c || is_space c.

Fixpoint re_sub_runs (s : pystr) : pystr :=
  match s with
  | [] => []
  | c :: r =>
      if is_dash_or_space c then
        match r with
        | [] => ["-"%char]
        | c' :: _ => if is_dash_or_space c' then re_sub_runs r else "-"%char :: re_sub_runs r
        end
      else c :: re_sub_runs r
  end.

(** The second half of [_create_article_id]: "Convert to slug". *)
Definition slugify (paper_title : pystr) : pystr :=
  let slug := re_sub_delete_others (py_lower paper_title) in
  let slug := re_sub_runs slug in
  strip_by is_dash slug.

(** The first half of [_create_article_id]: "Extract the paper title part". *)
Definition extract_paper_title (title : pystr) : pystr :=
  if py_contains (py "Paper Explained: ") title then
    let paper_title := nth 1 (py_split (py "Paper Explained: ") title) [] in
    if py_contains (py " - ") paper_title
    then nth 0 (py_split (py " - ") paper_title) []
    else paper_title
  else title.

(** [ContentManager._create_article_id] *)
Definition _create_article_id (title : pystr) : pystr :=
  slugify (extract_paper_title title).

(** [ContentManager._get_category_slug] *)
Definition _get_category_slug (category : pystr) : pystr :=
  let category_map :=
    [ (py "Foundation Models", py "foundation-models");
      (py "Generative Models", py "generative-models");
      (py "Optimization", py "optimization");
      (py "Applications", py "applications");
      (py "Basic Concepts", py "basic-concepts") ] in
  dict_get category_map category (py "basic-concepts").

(** [ContentManager._create_excerpt] *)
Definition _create_excerpt (background : pystr) : pystr :=
  let sentences := py_split (py ". ") background in
  match sentences with
  | s0 :: s1 :: _ => s0 ++ py ". " ++ s1 ++ py "."
  | _ =>
      if (200 <? length background)%nat
      then take 200 background ++ py "..."
      else background
  end.

(** The body of the loop of [integrate_articles]. *)
Definition article_data (article : Article) : CorpusEntry :=
  {| e_id := _create_article_id (a_title article);
     e_title := a_title article;
     e_subtitle := a_subtitle article;
     e_category := a_category article;
     e_categorySlug := _get_category_slug (a_category article);
     e_authors := a_authors article;
     e_paperUrl := a_paper_url article;
     e_readTime := a_read_time article;
     e_publishDate := a_publish_date article;
     e_conceptExplained := a_concept_explained article;
     e_content := a_content article;
     e_conceptExplanation := a_concept_explanation article;
     e_summary := a_summary article;
     e_excerpt := _create_excerpt (c_background (a_content article)) |}.

(** [open(path, 'w')] followed by a dump of [content]: the file is replaced
    as a whole. *)
Definition write_file (path : pystr) (content : FileContent) (fs : filesystem) : filesystem :=
  <[ path := content ]> fs.

Definition components_dir (self : ContentManager) : pystr :=
  path_join (path_join (blog_path self) (py "src")) (py "components").

(** [ContentManager._update_homepage_component] and its two siblings. *)
Definition _update_homepage_component (self : ContentManager) (fs : filesystem) : filesystem :=
  write_file (path_join (components_dir self) (py "HomePage.jsx")) (SourceText homepage_content) fs.

Definition _update_article_page_component (self : ContentManager) (fs : filesystem) : filesystem :=
  write_file (path_join (components_dir self) (py "ArticlePage.jsx")) (SourceText article_page_content) fs.

Definition _update_category_page_component (self : ContentManager) (fs : filesystem) : filesystem :=
  write_file (path_join (components_dir self) (py "CategoryPage.jsx")) (SourceText category_page_content) fs.

(** [ContentManager._update_react_components].  The data loader lies in
    [src/data], which the manager creates; the three components lie in
    [src/components], which it does not create and which is taken to exist:
    on a blog path without it the source stops at [HomePage.jsx] with
    [FileNotFoundError], after the corpus file and the data loader are
    written. *)
Definition _update_react_components (self : ContentManager) (fs : filesystem) : filesystem :=
  let fs := write_file (path_join (articles_dir self) (py "dataLoader.js"))
              (SourceText data_loader_content) fs in
  let fs := _update_homepage_component self fs in
  let fs := _update_article_page_component self fs in
  _update_category_page_component self fs.

Definition articles_file (self : ContentManager) : pystr :=
  path_join (articles_dir self) (py "articles.json").

(** [ContentManager.integrate_articles]: the value returned and the files
    afterwards. *)
Definition integrate_articles (self : ContentManager) (articles : list Article)
    (fs : filesystem) : list CorpusEntry * filesystem :=
  let articles_data := article_data <$> articles in
  let fs := write_file (articles_file self) (ArticlesJson articles_data) fs in
  let fs := _update_react_components self fs in
  (articles_data, fs).

(** The corpus a file system holds for a content manager: what the
    renderer reads from [articles.json]. *)
Definition persisted_corpus (self : ContentManager) (fs : filesystem) : option (list CorpusEntry) :=
  match fs !! articles_file self with
  | Some (ArticlesJson entries) => Some entries
  | _ => None
  end.

(** The attributes of a [ContentManager] instance: the two that [__init__]
    sets and the methods of the class. *)
Definition ContentManager_attributes : list string :=
  [ "blog_path"; "articles_dir"; "__init__"; "ensure_directories";
    "integrate_articles"; "_create_article_id"; "_get_category_slug";
    "_create_excerpt"; "_update_react_components"; "_update_homepage_component";
    "_update_article_page_component"; "_update_category_page_component" ]%string.

(** [getattr(content_manager, name)] *)
Definition ContentManager_getattr (name : string) : raises string :=
  if decide (name ∈ ContentManager_attributes) then ok name
  else raise (AttributeError
         (py "'ContentManager' object has no attribute '" ++ py name ++ py "'")).

(** ** blog_automation.py *)

Record BlogAutomation : Type := { manager : ContentManager }.

(** [BlogAutomation.__init__] *)
Definition BlogAutomation_init (blog_path : pystr) : BlogAutomation :=
  {| manager := ContentManager_init blog_path |}.

(** Lines 152-163 of [BlogAutomation.integrate_all_content]; [articles] is
    the list loaded from the files of [generated_content/articles], in the
    order of [os.listdir].  The articles come from [generate_article] and
    all carry ['publish_date']. *)
Definition integrate_all_content (self : BlogAutomation) (articles : list Article)
    (fs : filesystem) : list Article * filesystem :=
  match articles with
  | [] => ([], fs)
  | _ =>
      let articles := py_sort_desc str_leb a_publish_date articles in
      let '(_, fs) := integrate_articles (manager self) articles fs in
      (articles, fs)
  end.

(** [BlogAutomation.create_sample_article]: the article returned, or [None],
    and the files afterwards; [n] calls of the service were made before. *)
Definition create_sample_article (client : Client) (today : pystr) (n : nat)
    (paper_id : pystr) (fs : filesystem) : option Article * filesystem :=
  match list_find (λ p, p_id p = paper_id) classic_papers with
  | None => (None, fs)
  | Some (_, paper) =>
      match generate_article client today paper n with
      | inl _ => (None, fs)
      | inr (article, _) =>
          let article_file :=
            py "generated_content/articles/sample_"
            ++ map (λ c, if ch_eqb c "/" then "_"%char else c) paper_id
            ++ py ".json" in
          (Some article, write_file article_file (ArticleJson article) fs)
      end
  end.

(** ** daily_automation.py *)

(** What [get_existing_paper_ids] reads of an article loaded from
    [articles.json]: the keys ['paper_id'] and ['url'], when present. *)
Record StoredArticle : Type := {
  sa_paper_id : option pystr;
  sa_url : option pystr
}.

(** [DailyAutomation.get_existing_paper_ids] *)
Definition existing_id_of (article : StoredArticle) : option pystr :=
  match sa_paper_id article with
  | Some i => Some i
  | None =>
      match sa_url article with
      | Some u =>
          if py_contains (py "arxiv.org/abs/") u
          then py_index (py_split (py "/") u) (-1)
          else None
      | None => None
      end
  end.

Fixpoint get_existing_paper_ids (articles : list StoredArticle) : gset pystr :=
  match articles with
  | [] => ∅
  | article :: rest =>
      match existing_id_of article with
      | Some i => {[ i ]} ∪ get_existing_paper_ids rest
      | None => get_existing_paper_ids rest
      end
  end.

(** Lines 63-73 of [DailyAutomation.find_new_papers]: drop the papers whose
    id is in [existing_ids], sort the rest by score, highest first, and keep
    [new_papers[:limit]]. *)
Definition select_new_papers
    (existing_ids : gset pystr) (recent_papers : list Paper) (limit : Z) : list Paper :=
  let new_papers := filter (λ paper, p_id paper ∉ existing_ids) recent_papers in
  py_slice_to (py_sort_desc Z.leb relevance_score new_papers) limit.

Record DailyAutomation : Type := {
  content_manager : ContentManager;
  max_daily_articles : Z
}.

(** [DailyAutomation.__init__] *)
Definition DailyAutomation_init : DailyAutomation :=
  {| content_manager := ContentManager_init default_blog_path;
     max_daily_articles := 2 |}.

(** [DailyAutomation.find_new_papers]; [existing_articles] is what
    [load_existing_articles] returned and [recent_papers] what the fetcher's
    [search_recent_papers] returned. *)
Definition find_new_papers (self : DailyAutomation)
    (existing_articles : list StoredArticle) (recent_papers : list Paper) : list Paper :=
  select_new_papers (get_existing_paper_ids existing_articles) recent_papers
    (max_daily_articles self).

Section DailyIntegration.
(** What calling a resolved attribute of the content manager with
    [articles] does: the files afterwards and the exception raised, if
    any. *)
Variable call_attribute :
  ContentManager → string → list Article → filesystem → filesystem * option exn.

(** [DailyAutomation.integrate_articles]: the files afterwards and the
    lines printed. *)
Definition DailyAutomation_integrate_articles (self : DailyAutomation)
    (articles : list Article) (fs : filesystem) : filesystem * list pystr :=
  match articles with
  | [] => (fs, [py "No new articles to integrate"])
  | _ =>
      match ContentManager_getattr "integrate_articles_to_blog" with
      | inl e => (fs, [py "Error integrating articles: " ++ exn_str e])
      | inr method =>
          match call_attribute (content_manager self) method articles fs with
          | (fs', Some e) => (fs', [py "Error integrating articles: " ++ exn_str e])
          | (fs', None) =>
              (fs', [py "Successfully integrated "
                     ++ py_str_int (Z.of_nat (length articles))
                     ++ py " new articles into blog"])
          end
      end
  end.
End DailyIntegration.

(** ** What [generate_article] assembles

    The texts of an article written out call by call, for a paper that has
    a ['summary'], when [n] calls were made before.  That
    [generate_article] returns exactly this article is a lemma. *)

Definition call_text (client : Client) (i : nat) (prompt : pystr) : pystr :=
  match client i (chat_request prompt) with
  | Returned text => py_strip text
  | Raised e => error_placeholder e
  end.

Section Generated.
Variables (client : Client) (today : pystr) (paper : Paper) (summary : pystr) (n : nat).

Definition gen_background : pystr :=
  call_text client (0 + n) (background_prompt (p_title paper) summary).
Definition gen_methodology : pystr :=
  call_text client (1 + n) (methodology_prompt (p_title paper) summary).
Definition gen_results : pystr :=
  call_text client (2 + n) (results_prompt (p_title paper) summary).
Definition gen_significance : pystr :=
  call_text client (3 + n)
    (significance_prompt (p_title paper) summary (p_published paper)).
Definition gen_concept_title : pystr :=
  py_strip (call_text client (4 + n) (concept_prompt (p_title paper) summary)).
Definition gen_concept_content : pystr :=
  call_text client (5 + n)
    (explanation_prompt gen_concept_title (p_title paper) summary).
Definition gen_summary : pystr :=
  py_strip (call_text client (6 + n) (summary_prompt (p_title paper) summary)).
Definition gen_subtitle : pystr :=
  py_strip (call_text client (7 + n) (subtitle_prompt (p_title paper) summary)).

Definition generated_article : Article :=
  {| a_title := py "Paper Explained: " ++ p_title paper ++ py " - A Beginner's Guide";
     a_subtitle := gen_subtitle;
     a_category := _format_category (p_category paper);
     a_authors := p_authors paper;
     a_paper_url := py "https://arxiv.org/abs/" ++ p_id paper;
     a_read_time :=
       py_str_int (estimate_read_time gen_background gen_methodology gen_results
                     gen_significance gen_concept_content)
       ++ py " min read";
     a_publish_date := today;
     a_concept_explained := gen_concept_title;
     a_content :=
       {| c_background := gen_background;
          c_methodology := gen_methodology;
          c_results := gen_results;
          c_significance := gen_significance |};
     a_concept_explanation :=
       {| ce_title :=
            py "Understanding " ++ gen_concept_title ++ py ": The Heart of "
            ++ (if py_contains (py ":") (p_title paper)
                then nth 0 (py_split (py ":") (p_title paper)) []
                else p_title paper);
          ce_content := gen_concept_content |};
     a_summary := gen_summary;
     a_paper_id := None;
     a_arxiv_url := None;
     a_categories := None |}.
End Generated.







(** ** The id as the specification words it *)

(** [s.removeprefix(p)] and [s.removesuffix(p)] *)
Definition remove_prefix (p s : pystr) : pystr :=
  if is_prefix p s then drop (length p) s else s.

Definition remove_suffix (p s : pystr) : pystr :=
  if is_prefix (reverse p) (reverse s) then take (length s - length p) s else s.

(** The corpus id in the words of the specification: strip the prefix
    ["Paper Explained: "] and the trailing suffix [" - A Beginner's Guide"],
    each only if present, and slug the remainder. *)
Definition spec_article_id (title : pystr) : pystr :=
  slugify
    (remove_suffix (py " - A Beginner's Guide")
       (remove_prefix (py "Paper Explained: ") title)).

(** ** Notions used in the proofs *)

(** The separator that [os.path.join] puts after [a]. *)
Definition path_sep (a : pystr) : pystr :=
  match last a with
  | None => []
  | Some c => if ch_eqb c "/" then [] else py "/"
  end.

(** A character that a slug carries between its dashes. *)
Definition slug_letter (c : ascii) : Prop :=
  is_dash_or_space c = false ∧ keeps_slug_char c = true ∧ lower_char c = c.

(** Dashes and slug letters, no dash next to another. *)
Fixpoint well_dashed (s : pystr) : Prop :=
  match s with
  | [] => True
  | c :: r =>
      (if is_dash c
       then match r with [] => True | c' :: _ => is_dash c' = false end
       else slug_letter c)
      ∧ well_dashed r
  end.

Definition no_dash_at (o : option ascii) : Prop :=
  ∀ c, o = Some c → is_dash c = false.

(** The shape of a slug. *)
Definition is_slug (s : pystr) : Prop :=
  well_dashed s ∧ no_dash_at (head s) ∧ no_dash_at (last s).

(** ** Sample data *)

(** A paper as [EnhancedArxivFetcher.search_recent_papers] builds it. *)
Definition recent_paper (id title : string) (score : Z) : Paper :=
  {| p_id := py id;
     p_title := py title;
     p_authors := [py "A. Author"];
     p_published := py "2025-01-15T00:00:00+00:00";
     p_category := py "foundation-models";
     p_summary := Some (py "We study " ++ py title ++ py ".");
     p_abstract := None;
     p_url := None;
     p_relevance_score := Some score;
     p_categories := Some [py "cs.LG"] |}.

(** An article as [generate_article] builds it. *)
Definition sample_article (paper_title publish_date : string) : Article :=
  {| a_title := py "Paper Explained: " ++ py paper_title ++ py " - A Beginner's Guide";
     a_subtitle := py "A subtitle";
     a_category := py "Foundation Models";
     a_authors := [py "A. Author"];
     a_paper_url := py "https://arxiv.org/abs/2501.00001";
     a_read_time := py "1 min read";
     a_publish_date := py publish_date;
     a_concept_explained := py "A Concept";
     a_content :=
       {| c_background := py "Background.";
          c_methodology := py "Methodology.";
          c_results := py "Results.";
          c_significance := py "Significance." |};
     a_concept_explanation :=
       {| ce_title := py "Understanding A Concept: The Heart of " ++ py paper_title;
          ce_content := py "Explanation." |};
     a_summary := py "Summary.";
     a_paper_id := None;
     a_arxiv_url := None;
     a_categories := None |}.

Definition sample_manager : ContentManager := ContentManager_init default_blog_path.

(** A corpus file holding one entry, and an article generated later. *)
Definition old_entry : CorpusEntry :=
  article_data (sample_article "Deep Residual Learning" "2024-03-01").

Definition fs_with_corpus : filesystem :=
  {[ articles_file sample_manager := ArticlesJson [old_entry] ]}.

Definition new_article : Article :=
  sample_article "Neural Machine Translation" "2025-01-15".

(** Two articles on different papers whose titles give the same slug. *)
Definition article_upper : Article :=
  sample_article "Attention Is All You Need" "2025-01-15".

Definition article_lower : Article :=
  sample_article "Attention is all you need!" "2025-01-16".

(** A service whose third call fails, and one that always answers. *)
Definition answering_client : Client :=
  λ n request, Returned (py " Generated text number " ++ py (pretty n) ++ py ". ").


Definition sample_paper : Paper := recent_paper "2501.00001" "Sparse Attention" 12.

(** A text of [k] words with one space between them. *)
Fixpoint words_text (k : nat) : pystr :=
  match k with
  | O => []
  | S k' =>
      match k' with
      | O => py "word"
      | S _ => py "word " ++ words_text k'
      end
  end.

(** A service that answers with a background of 61 words, with 60 words
    for the methodology, the results, the significance and the explanation
    of the concept, and with two words otherwise. *)
Definition wordy_client : Client :=
  λ n request,
    Returned (match n with
              | 0 => words_text 61
              | 1 | 2 | 3 | 5 => words_text 60
              | _ => py "Sparse attention"
              end)%nat.

(** An endpoint that cannot be reached, one that answers with an error
    status, and one whose body is not XML. *)
Definition unreachable_get : pystr → list (pystr * pystr) → raises Response :=
  λ url params, raise (OtherError (py "ConnectionError: Max retries exceeded")).

Definition error_status_get : pystr → list (pystr * pystr) → raises Response :=
  λ url params,
    mret {| status_error := Some (OtherError (py "503 Server Error: Service Unavailable"));
            content := [] |}.

Definition garbage_get : pystr → list (pystr * pystr) → raises Response :=
  λ url params, mret {| status_error := None; content := py "<feed><entry>" |}.

(** A parser that accepts only the empty feed. *)
Definition strict_fromstring : pystr → raises Element :=
  λ text,
    if decide (text = py "<feed xmlns='http://www.w3.org/2005/Atom'/>")
    then mret (Elem (atom "feed") [] None [])
    else raise (OtherError (py "ParseError: no element found")).

Definition unreachable_search : pystr → Z → list (EnhancedArxivFetcher.ArxivResult * Z) * option exn :=
  λ query max_results, ([], Some (OtherError (py "ConnectionError: Max retries exceeded"))).

(** Five candidates with the scores of the scenario, and a sixth that the
    corpus already covers. *)
Definition candidate_1 : Paper := recent_paper "2501.00001" "Sparse Attention" 3.
Definition candidate_2 : Paper := recent_paper "2501.00002" "Diffusion Policies" 9.
Definition candidate_3 : Paper := recent_paper "2501.00003" "Graph Pooling" 1.
Definition candidate_4 : Paper := recent_paper "2501.00004" "Vision Transformers at Scale" 9.
Definition candidate_5 : Paper := recent_paper "2501.00005" "Retrieval Augmentation" 5.
Definition candidate_seen : Paper := recent_paper "2412.09999" "Already Covered" 40.

Definition sample_existing_ids : gset pystr := {[ py "2412.09999" ]}.

(** A paper whose title holds [" - "]. *)
Definition dashed_paper : Paper :=
  recent_paper "2501.00006" "Vision Transformers - A Survey" 10.

(** A feed of two entries, the second without a title.  *)
Definition text_element (name : string) (text : pystr) : Element :=
  Elem (atom name) [] (Some text) [].

Definition good_entry : Element :=
  Elem (atom "entry") [] None
    [ text_element "id" (py "http://arxiv.org/abs/2501.00001v1");
      text_element "published" (py "2025-01-15T09:30:00Z");
      text_element "title" (py "  Sparse" ++ [chr 10] ++ py "Attention ");
      text_element "summary" (py "We study sparse attention.");
      Elem (atom "author") [] None [text_element "name" (py "A. Author")];
      Elem (atom "category") [(py "term", py "cs.RO")] None [];
      Elem (atom "category") [(py "term", py "cs.LG")] None [] ].

Definition entry_without_title : Element :=
  Elem (atom "entry") [] None
    [ text_element "id" (py "http://arxiv.org/abs/2501.00002v1");
      text_element "published" (py "2025-01-16T09:30:00Z");
      text_element "summary" (py "No title here.") ].

Definition sample_feed : Element :=
  Elem (atom "feed") [] None [good_entry; entry_without_title].

Definition answering_get : pystr → list (pystr * pystr) → raises Response :=
  λ url params, mret {| status_error := None; content := py "<feed>...</feed>" |}.

(** * More of the code *)

(** ** The categories of the blog *)

(** The keys of [category_map] in [ArticleGenerator._format_category], which
    are the values of the one in [ContentManager._get_category_slug]. *)
Definition category_slugs : list pystr :=
  [ py "foundation-models"; py "generative-models"; py "optimization";
    py "applications"; py "basic-concepts" ].

(** The display names: the values of the first map, the keys of the second. *)
Definition category_names : list pystr :=
  [ py "Foundation Models"; py "Generative Models"; py "Optimization";
    py "Applications"; py "Basic Concepts" ].

(** ** Joining *)

(** [sep.join(l)] *)
Fixpoint py_join (sep : pystr) (l : list pystr) : pystr :=
  match l with
  | [] => []
  | x :: rest =>
      match rest with
      | [] => x
      | _ => x ++ sep ++ py_join sep rest
      end
  end.

(** ** The files of the content manager *)

Definition data_loader_path (self : ContentManager) : pystr :=
  path_join (articles_dir self) (py "dataLoader.js").

Definition homepage_path (self : ContentManager) : pystr :=
  path_join (components_dir self) (py "HomePage.jsx").

Definition article_page_path (self : ContentManager) : pystr :=
  path_join (components_dir self) (py "ArticlePage.jsx").

Definition category_page_path (self : ContentManager) : pystr :=
  path_join (components_dir self) (py "CategoryPage.jsx").

(** The paths that [integrate_articles] opens for writing. *)
Definition written_paths (self : ContentManager) : list pystr :=
  [ articles_file self; data_loader_path self; homepage_path self;
    article_page_path self; category_page_path self ].

(** ** daily_automation.py: generating and saving *)









Section DailyRun.
Variable call_attribute :
  ContentManager → string → list Article → filesystem → filesystem * option exn.
Variable client : Client.
Variable today : pystr.

End DailyRun.

(** ['summary' in paper] *)
Definition has_summary (paper : Paper) : bool :=
  match p_summary paper with
  | Some _ => true
  | None => false
  end.

(** ** enhanced_arxiv_fetcher.py: the search by topic *)

(** [any(cat in result.categories for cat in relevant_categories)] *)
Definition has_relevant_category (result : EnhancedArxivFetcher.ArxivResult) : bool :=
  let relevant_categories :=
    [py "cs.AI"; py "cs.LG"; py "cs.CV"; py "cs.CL"; py "cs.NE"; py "stat.ML"] in
  existsb
    (λ cat, EnhancedArxivFetcher.py_in cat (EnhancedArxivFetcher.r_categories result))
    relevant_categories.

(** A result of the search, published on 15 January 2025 at 09:30. *)
Definition sample_result : EnhancedArxivFetcher.ArxivResult :=
  {| EnhancedArxivFetcher.r_entry_id := py "http://arxiv.org/abs/2501.00001v1";
     EnhancedArxivFetcher.r_title := py "Sparse Attention for Long Documents";
     EnhancedArxivFetcher.r_authors := [py "A. Author"];
     EnhancedArxivFetcher.r_summary := py "We study sparse attention in a transformer.";
     EnhancedArxivFetcher.r_published :=
       {| EnhancedArxivFetcher.dt_micros := 1736933400000000;
          EnhancedArxivFetcher.dt_iso := py "2025-01-15T09:30:00+00:00" |};
     EnhancedArxivFetcher.r_updated := None;
     EnhancedArxivFetcher.r_categories := [py "cs.CL"; py "cs.IR"];
     EnhancedArxivFetcher.r_pdf_url := Some (py "http://arxiv.org/pdf/2501.00001v1") |}.

(** The loop of [search_papers_by_topic] over the results that the search
    yields: the papers collected, and whether the loop ended by [break]. *)
Fixpoint topic_loop (max_results : Z) (papers : list Paper)
    (yielded : list (EnhancedArxivFetcher.ArxivResult * Z)) : list Paper * bool :=
  match yielded with
  | [] => (papers, false)
  | (result, now) :: rest =>
      if has_relevant_category result then
        let papers := papers ++ [EnhancedArxivFetcher.paper_data now result] in
        if max_results <=? Z.of_nat (length papers) then (papers, true)
        else topic_loop max_results papers rest
      else topic_loop max_results papers rest
  end.

Section TopicSearch.
(** Iterating over the results of [arxiv.Search] sorted by relevance:
    the results it yields, each with the clock reading made while it is
    scored, and the exception that it raises when asked for one more, if
    it does. *)
Variable arxiv_search_by_relevance :
  pystr → Z → list (EnhancedArxivFetcher.ArxivResult * Z) * option exn.

(** [EnhancedArxivFetcher.search_papers_by_topic]: the exception of the
    search is met only if the loop asks for a result past the last one
    yielded, and then the papers collected are dropped. *)
Definition search_papers_by_topic (topic : pystr) (max_results : Z) : list Paper :=
  let '(yielded, raised) := arxiv_search_by_relevance topic (max_results * 2) in
  let '(papers, broke) := topic_loop max_results [] yielded in
  if broke then papers
  else match raised with
       | Some _ => []
       | None => papers
       end.
End TopicSearch.

(** ** arxiv_fetcher.py: entries and recent papers *)

(** The four elements of an entry whose text [_parse_entry] cannot do
    without. *)
Definition required_elements : list pystr :=
  [ atom "title"; atom "summary"; atom "published"; atom "id" ].

(** What [_parse_entry] makes of [good_entry]. *)
Definition parsed_good_entry : ParsedPaper :=
  {| pp_id := py "2501.00001v1";
     pp_title := py "Sparse Attention";
     pp_authors := [Some (py "A. Author")];
     pp_abstract := py "We study sparse attention.";
     pp_published := py "2025-01-15";
     pp_category := py "applications";
     pp_url := py "https://arxiv.org/abs/2501.00001v1";
     pp_arxiv_categories := [Some (py "cs.RO"); Some (py "cs.LG")] |}.

Section RecentPapers.
(** The network at the request of number [i], counted from 0, and the XML
    parser. *)
Variable requests_get : nat → pystr → list (pystr * pystr) → raises Response.
Variable fromstring : pystr → raises Element.

(** The loop of [get_recent_papers] over [categories]: what it appends to
    [all_papers] when [i] requests were made before. *)
Fixpoint recent_loop (categories : list pystr) (i : nat) : list ParsedPaper :=
  match categories with
  | [] => []
  | category :: rest =>
      let query := py "cat:" ++ category in
      let papers := search_papers (requests_get i) fromstring query 20 None in
      papers ++ recent_loop rest (S i)
  end.

(** [ArxivFetcher.get_recent_papers]; [days] is not read. *)
Definition get_recent_papers (days : Z) (categories : option (list pystr))
    : list ParsedPaper :=
  let categories :=
    match categories with
    | None => [py "cs.LG"; py "cs.CL"; py "cs.CV"; py "cs.AI"]
    | Some categories => categories
    end in
  let all_papers := recent_loop categories 0 in
  let all_papers := py_sort_desc str_leb pp_published all_papers in
  py_slice_to all_papers 10.
End RecentPapers.

(** ** The papers a search yields *)

(** The papers made of the results that pass the category test, in the
    order of the results. *)
Definition relevant_papers
    (yielded : list (EnhancedArxivFetcher.ArxivResult * Z)) : list Paper :=
  omap (λ '(result, now),
          if has_relevant_category result
          then Some (EnhancedArxivFetcher.paper_data now result)
          else None)
       yielded.

(** A search that yields [sample_result] for every query. *)
Definition answering_search
    : pystr → Z → list (EnhancedArxivFetcher.ArxivResult * Z) * option exn :=
  λ query max_results, ([(sample_result, 1736935200000000)], None).

(** ** blog_automation.py: generating from the plain fetcher *)



(** What a generation of [BlogAutomation] gives: the articles returned, the
    files of articles written under [generated_content/articles], oldest
    first, and the number of calls of the service made by the end.  The
    file of the papers under [generated_content/papers] is not followed. *)
Abbreviation Generation := (list Article * list (pystr * Article) * nat)%type.

Section BlogGeneration.
Variable requests_get : nat → pystr → list (pystr * pystr) → raises Response.
Variable fromstring : pystr → raises Element.
Variable client : Client.
Variable today : pystr.





(** What [integrate_all_content] loads from [generated_content/articles]
    when the run has written [files] there. *)
Variable load_articles : list (pystr * Article) → list Article.

End BlogGeneration.

(** * Proofs *)

(** ** Sorting *)

Section PySortFacts.
Context {A K : Type} (leb : K -> K -> bool) (key : A -> K).
Hypothesis leb_total : ∀ a b, leb a b = true ∨ leb b a = true.
Hypothesis leb_trans : ∀ a b c, leb a b = true → leb b c = true → leb a c = true.

Lemma insert_desc_perm x l : insert_desc leb key x l ≡ₚ x :: l.
Proof.
  induction l as [|y r IH]; simpl; [done|].
  destruct (leb (key y) (key x)); [done|].
  rewrite IH. apply Permutation_swap.
Qed.

Lemma py_sort_desc_perm l : py_sort_desc leb key l ≡ₚ l.
Proof.
  induction l as [|x l IH]; simpl; [done|].
  rewrite insert_desc_perm. by rewrite IH.
Qed.

Lemma desc_trans x y z : desc leb key x y → desc leb key y z → desc leb key x z.
Proof. unfold desc. eauto. Qed.

Lemma insert_desc_sorted x l :
  StronglySorted (desc leb key) l → StronglySorted (desc leb key) (insert_desc leb key x l).
Proof.
  induction 1 as [|y r Hr IH Hy]; simpl.
  - repeat constructor.
  - destruct (leb (key y) (key x)) eqn:E.
    + constructor; [by constructor|].
      constructor; [done|].
      eapply Forall_impl; [exact Hy|]. intros z Hz. by eapply desc_trans.
    + constructor; [done|].
      rewrite insert_desc_perm. constructor; [|done].
      unfold desc. destruct (leb_total (key x) (key y)); congruence.
Qed.

Lemma py_sort_desc_sorted l : StronglySorted (desc leb key) (py_sort_desc leb key l).
Proof.
  induction l as [|x l IH]; simpl; [constructor|]. by apply insert_desc_sorted.
Qed.

Lemma insert_desc_same_key v x l :
  List.filter (same_key leb key v) (insert_desc leb key x l)
  = List.filter (same_key leb key v) (x :: l).
Proof.
  induction l as [|y r IH]; [done|].
  cbn [insert_desc]. destruct (leb (key y) (key x)) eqn:E; [done|].
  cbn [List.filter] in *. rewrite IH.
  destruct (same_key leb key v x) eqn:Ex, (same_key leb key v y) eqn:Ey; try done.
  unfold same_key in *.
  apply andb_prop in Ex as [_ Hx], Ey as [Hy _].
  rewrite (leb_trans _ _ _ Hy Hx) in E. done.
Qed.

(** Stability: the items of any one key come out in the order they went in. *)
Lemma py_sort_desc_stable v l :
  List.filter (same_key leb key v) (py_sort_desc leb key l)
  = List.filter (same_key leb key v) l.
Proof.
  induction l as [|x l IH]; [done|].
  cbn [py_sort_desc foldr]. rewrite insert_desc_same_key.
  cbn [List.filter]. fold (py_sort_desc leb key l). by rewrite IH.
Qed.
Lemma same_key_refl x : same_key leb key (key x) x = true.
Proof. unfold same_key. by destruct (leb_total (key x) (key x)) as [-> | ->]. Qed.

(** A list sorted in descending order is determined by the sequences of
    its items of each key. *)
Lemma sorted_by_keys_unique l1 l2 :
  StronglySorted (desc leb key) l1 → StronglySorted (desc leb key) l2 →
  (∀ v, List.filter (same_key leb key v) l1 = List.filter (same_key leb key v) l2) →
  l1 = l2.
Proof.
  intros H1. revert l2. induction H1 as [|x l1 Hl1 IH Hx]; intros l2 H2 Hf.
  - destruct l2 as [|y l2]; [done|].
    specialize (Hf (key y)). cbn in Hf. by rewrite same_key_refl in Hf.
  - destruct H2 as [|y l2 Hl2 Hy].
    { specialize (Hf (key x)). cbn in Hf. by rewrite same_key_refl in Hf. }
    assert (Hxy : leb (key x) (key y) = true).
    { pose proof (Hf (key x)) as Hfx. cbn in Hfx. rewrite same_key_refl in Hfx.
      destruct (same_key leb key (key x) y) eqn:E.
      - unfold same_key in E. by apply andb_prop in E as [_ ?].
      - assert (Hin : In x (List.filter (same_key leb key (key x)) l2))
          by (rewrite <- Hfx; by left).
        apply List.filter_In in Hin as [Hin _].
        apply list_elem_of_In in Hin.
        by apply (proj1 (Forall_forall _ _) Hy) in Hin. }
    assert (Hyx : leb (key y) (key x) = true).
    { pose proof (Hf (key y)) as Hfy. cbn in Hfy. rewrite same_key_refl in Hfy.
      destruct (same_key leb key (key y) x) eqn:E.
      - unfold same_key in E. by apply andb_prop in E as [_ ?].
      - assert (Hin : In y (List.filter (same_key leb key (key y)) l1))
          by (rewrite Hfy; by left).
        apply List.filter_In in Hin as [Hin _].
        apply list_elem_of_In in Hin.
        by apply (proj1 (Forall_forall _ _) Hx) in Hin. }
    assert (x = y) as <-.
    { pose proof (Hf (key x)) as Hfx. cbn in Hfx. rewrite same_key_refl in Hfx.
      unfold same_key in Hfx at 2. rewrite Hxy, Hyx in Hfx. by injection Hfx. }
    f_equal. apply IH; [done|]. intros v. specialize (Hf v). cbn in Hf.
    destruct (same_key leb key v x); [by injection Hf|done].
Qed.

(** Any stable sort into descending order returns what [py_sort_desc]
    returns. *)
Lemma py_sort_desc_unique l l' :
  StronglySorted (desc leb key) l' →
  (∀ v, List.filter (same_key leb key v) l' = List.filter (same_key leb key v) l) →
  l' = py_sort_desc leb key l.
Proof.
  intros Hs Hf. apply sorted_by_keys_unique; [done|apply py_sort_desc_sorted|].
  intros v. by rewrite py_sort_desc_stable.
Qed.
End PySortFacts.

(** ** C1: the selection of new papers *)

Lemma same_key_score v p : same_key Z.leb relevance_score v p = (relevance_score p =? v).
Proof. unfold same_key. lia. Qed.

Lemma filter_take_prefix {A} (f : A → bool) n (l : list A) :
  List.filter f (take n l) `prefix_of` List.filter f l.
Proof.
  exists (List.filter f (drop n l)).
  by rewrite <- List.filter_app, take_drop.
Qed.

Lemma py_slice_to_take {A} (l : list A) n : ∃ k, py_slice_to l n = take k l.
Proof. unfold py_slice_to. destruct (n <? 0); eauto. Qed.

Lemma py_slice_to_length {A} (l : list A) n :
  0 ≤ n → Z.of_nat (length (py_slice_to l n)) ≤ n.
Proof.
  intros Hn. unfold py_slice_to.
  destruct (Z.ltb_spec n 0); [lia|]. rewrite length_take. lia.
Qed.

Lemma StronglySorted_take {A} (R : A → A → Prop) n l :
  StronglySorted R l → StronglySorted R (take n l).
Proof.
  intros H. revert n. induction H as [|x l Hl IH Hx]; intros [|n]; simpl; try constructor.
  - apply IH.
  - by apply Forall_take.
Qed.

Lemma StronglySorted_mono {A} (R R' : A → A → Prop) l :
  (∀ a b, R a b → R' a b) → StronglySorted R l → StronglySorted R' l.
Proof.
  intros HR. induction 1 as [|x l Hl IH Hx]; constructor; [done|].
  eapply Forall_impl; eauto.
Qed.

Lemma Zleb_total a b : (a <=? b) = true ∨ (b <=? a) = true.
Proof. lia. Qed.

Lemma Zleb_trans a b c : (a <=? b) = true → (b <=? c) = true → (a <=? c) = true.
Proof. lia. Qed.

Lemma filter_all {A} (P : A → Prop) `{∀ x, Decision (P x)} (l : list A) :
  Forall P l → filter P l = l.
Proof.
  induction 1 as [|x l Hx Hl IH]; [done|].
  rewrite filter_cons_True by done. by rewrite IH.
Qed.

Lemma select_new_papers_unseen existing_ids recent_papers limit p :
  p ∈ select_new_papers existing_ids recent_papers limit →
  p ∈ recent_papers ∧ p_id p ∉ existing_ids.
Proof.
  unfold select_new_papers.
  destruct (py_slice_to_take
    (py_sort_desc Z.leb relevance_score
       (filter (λ paper, p_id paper ∉ existing_ids) recent_papers)) limit) as [k ->].
  intros Hp. apply subseteq_take in Hp.
  rewrite py_sort_desc_perm in Hp.
  apply list_elem_of_filter in Hp. tauto.
Qed.

(** C1. [select_new_papers] (the filter, sort and slice of
    [find_new_papers]) returns only papers whose id is not in the existing
    set; for a limit that is not negative it returns at most [limit] papers;
    the result is ordered by non-increasing relevance score; and for every
    score [v] the returned papers of score [v] are the first ones, in input
    order, of the unseen candidates of score [v], so that of two candidates
    with equal score the earlier one comes first.  For five unseen papers
    with scores 3, 9, 1, 9, 5 and limit 2 the result is the two papers of
    score 9, in input order. *)
Theorem find_new_papers_selection :
  ∀ (existing_ids : gset pystr) (recent_papers : list Paper) (limit : Z),
    let selected := select_new_papers existing_ids recent_papers limit in
    (∀ p, p ∈ selected → p_id p ∉ existing_ids)
    ∧ (0 ≤ limit → Z.of_nat (length selected) ≤ limit)
    ∧ StronglySorted (λ a b, relevance_score b ≤ relevance_score a) selected
    ∧ (∀ v, List.filter (λ p, relevance_score p =? v) selected
            `prefix_of`
            List.filter (λ p, relevance_score p =? v)
              (filter (λ paper, p_id paper ∉ existing_ids) recent_papers))
    ∧ (∀ p1 p2 p3 p4 p5,
         recent_papers = [p1; p2; p3; p4; p5] →
         Forall (λ p, p_id p ∉ existing_ids) recent_papers →
         relevance_score <$> recent_papers = [3; 9; 1; 9; 5] →
         limit = 2 →
         selected = [p2; p4]).
Proof.
  intros existing_ids recent_papers limit selected.
  split; [|split; [|split; [|split]]].
  - intros p Hp. by apply select_new_papers_unseen in Hp as [_ ?].
  - apply py_slice_to_length.
  - subst selected. unfold select_new_papers.
    match goal with |- context [py_slice_to ?l _] =>
      destruct (py_slice_to_take l limit) as [k ->] end.
    apply StronglySorted_take.
    eapply StronglySorted_mono;
      [| apply (py_sort_desc_sorted Z.leb relevance_score Zleb_total Zleb_trans)].
    unfold desc. intros a b. lia.
  - intros v. subst selected. unfold select_new_papers.
    match goal with |- context [py_slice_to ?l _] =>
      destruct (py_slice_to_take l limit) as [k ->] end.
    etrans; [apply filter_take_prefix|].
    rewrite <- (List.filter_ext _ _ (same_key_score v)).
    rewrite (py_sort_desc_stable Z.leb relevance_score Zleb_trans).
    by rewrite (List.filter_ext _ _ (same_key_score v)).
  - intros p1 p2 p3 p4 p5 -> Hunseen Hscores ->.
    subst selected. unfold select_new_papers.
    rewrite (filter_all _ _ Hunseen).
    injection Hscores as H1 H2 H3 H4 H5.
    unfold py_sort_desc. cbn [foldr insert_desc].
    repeat (rewrite ?H1, ?H2, ?H3, ?H4, ?H5; cbn [insert_desc Z.leb Z.compare Pos.compare Pos.compare_cont]).
    reflexivity.
Qed.

Lemma find_new_papers_selection_witness :
  Z.of_nat (length (select_new_papers sample_existing_ids
      [candidate_seen; candidate_1; candidate_2; candidate_3; candidate_4; candidate_5] 2))
  ≤ 2
  ∧ select_new_papers sample_existing_ids
      [candidate_1; candidate_2; candidate_3; candidate_4; candidate_5] 2
    = [candidate_2; candidate_4].
Proof.
  split.
  - destruct (find_new_papers_selection sample_existing_ids
                [candidate_seen; candidate_1; candidate_2; candidate_3; candidate_4;
                 candidate_5] 2) as (_ & Hlength & _).
    apply Hlength. lia.
  - destruct (find_new_papers_selection sample_existing_ids
                [candidate_1; candidate_2; candidate_3; candidate_4; candidate_5] 2)
      as (_ & _ & _ & _ & Hscenario).
    apply (Hscenario candidate_1 candidate_2 candidate_3 candidate_4 candidate_5).
    + reflexivity.
    + repeat constructor; apply (bool_decide_unpack _); by vm_compute.
    + reflexivity.
    + reflexivity.
Defined.

(** ** String order *)

Lemma str_leb_total a b : str_leb a b = true ∨ str_leb b a = true.
Proof.
  revert b. induction a as [|x a IH]; intros [|y b]; simpl; auto.
  destruct (Nat.ltb_spec (ord x) (ord y)), (Nat.ltb_spec (ord y) (ord x));
    auto; lia.
Qed.

Lemma str_leb_trans a b c :
  str_leb a b = true → str_leb b c = true → str_leb a c = true.
Proof.
  revert b c. induction a as [|x a IH]; intros [|y b] [|z c]; simpl; try done.
  destruct (Nat.ltb_spec (ord x) (ord y)), (Nat.ltb_spec (ord y) (ord x)),
    (Nat.ltb_spec (ord y) (ord z)), (Nat.ltb_spec (ord z) (ord y)),
    (Nat.ltb_spec (ord x) (ord z)), (Nat.ltb_spec (ord z) (ord x));
    try done; try lia; eauto.
Qed.

(** ** Paths *)

Lemma path_join_relative a b :
  is_prefix (py "/") b = false → path_join a b = a ++ path_sep a ++ b.
Proof.
  intros Hb. unfold path_join, path_sep. rewrite Hb.
  destruct (last a) as [c|] eqn:E.
  - by destruct (ch_eqb c "/").
  - apply last_None in E. by subst.
Qed.

Lemma path_join_last a b c : last b = Some c → last (path_join a b) = Some c.
Proof.
  intros Hb. unfold path_join.
  destruct (is_prefix (py "/") b); [done|].
  destruct (last a) as [d|]; [|done].
  destruct (ch_eqb d "/"); rewrite !last_app, ?Hb; by rewrite ?Hb.
Qed.

(** ** content_manager.py: what [integrate_articles] leaves in the corpus file *)

Lemma update_react_components_corpus self fs :
  _update_react_components self fs !! articles_file self = fs !! articles_file self.
Proof.
  assert (Hlast : last (articles_file self) = Some "n"%char)
    by (by apply path_join_last).
  unfold _update_react_components, _update_category_page_component,
    _update_article_page_component, _update_homepage_component, write_file.
  rewrite !lookup_insert_ne; [done|..];
    intros Heq; rewrite <- Heq in Hlast;
    erewrite path_join_last in Hlast by reflexivity; discriminate.
Qed.

Lemma integrate_articles_corpus self articles fs :
  persisted_corpus self (integrate_articles self articles fs).2
  = Some (article_data <$> articles).
Proof.
  unfold persisted_corpus, integrate_articles. cbn [snd].
  rewrite update_react_components_corpus.
  unfold write_file. by rewrite lookup_insert_eq.
Qed.

Lemma integrate_articles_result self articles fs :
  (integrate_articles self articles fs).1 = article_data <$> articles.
Proof. done. Qed.

(** ** C2: what corpus integration persists *)

(** C2 as stated fails: [integrate_articles] replaces the corpus file, and
    the entry that was there is gone. *)
Lemma integrate_articles_loses_existing_entry :
  persisted_corpus sample_manager fs_with_corpus = Some [old_entry]
  ∧ ¬ (∃ corpus,
         persisted_corpus sample_manager
           (integrate_articles sample_manager [new_article] fs_with_corpus).2
         = Some corpus
         ∧ old_entry ∈ corpus).
Proof.
  split.
  - unfold persisted_corpus, fs_with_corpus. by rewrite lookup_singleton_eq.
  - intros (corpus & Hcorpus & Hold).
    rewrite integrate_articles_corpus in Hcorpus.
    injection Hcorpus as <-.
    apply list_elem_of_singleton in Hold.
    apply (f_equal e_publishDate) in Hold. vm_compute in Hold. discriminate.
Qed.

(** C2, amended.  [integrate_articles] writes a corpus file holding exactly
    one entry for each article it is given, in the order given, whatever
    the file held before.  On the path of [integrate_all_content] the
    articles are first sorted by ['publish_date'], latest first, so that the
    corpus written there is a rearrangement of the entries of the given
    articles sorted by [publishDate] in descending order; with no article
    to integrate nothing is written. *)
Theorem integrate_articles_persists_given_articles :
  (∀ self articles fs,
     persisted_corpus self (integrate_articles self articles fs).2
     = Some (article_data <$> articles))
  ∧ (∀ self articles fs,
       articles ≠ [] →
       ∃ corpus,
         persisted_corpus (manager self) (integrate_all_content self articles fs).2
         = Some corpus
         ∧ corpus ≡ₚ article_data <$> articles
         ∧ StronglySorted
             (λ x y, str_leb (e_publishDate y) (e_publishDate x) = true) corpus)
  ∧ (∀ self fs, (integrate_all_content self [] fs).2 = fs).
Proof.
  split; [|split].
  - apply integrate_articles_corpus.
  - intros self articles fs Hne.
    exists (article_data <$> py_sort_desc str_leb a_publish_date articles).
    split; [|split].
    + unfold integrate_all_content. destruct articles as [|a l]; [done|].
      destruct (integrate_articles _ _ _) as [data fs'] eqn:E.
      cbn [snd]. replace fs' with (integrate_articles (manager self)
        (py_sort_desc str_leb a_publish_date (a :: l)) fs).2 by (by rewrite E).
      apply integrate_articles_corpus.
    + by rewrite py_sort_desc_perm.
    + eapply StronglySorted_fmap;
        [| apply (py_sort_desc_sorted str_leb a_publish_date str_leb_total str_leb_trans)].
      intros x y Hxy. exact Hxy.
  - done.
Qed.

Lemma integrate_articles_persists_given_articles_witness :
  ∃ corpus,
    persisted_corpus sample_manager
      (integrate_all_content (BlogAutomation_init default_blog_path)
         [new_article; article_lower] fs_with_corpus).2
    = Some corpus
    ∧ corpus ≡ₚ article_data <$> [new_article; article_lower]
    ∧ StronglySorted
        (λ x y, str_leb (e_publishDate y) (e_publishDate x) = true) corpus.
Proof.
  apply (proj1 (proj2 integrate_articles_persists_given_articles)
           (BlogAutomation_init default_blog_path)).
  discriminate.
Defined.

(** ** C3: the daily integration step *)

Lemma integrate_articles_to_blog_missing :
  ("integrate_articles_to_blog"%string ∉ ContentManager_attributes)
  ∧ ContentManager_getattr "integrate_articles_to_blog"
    = raise (AttributeError
        (py "'ContentManager' object has no attribute 'integrate_articles_to_blog'")).
Proof.
  split; [|done].
  apply (bool_decide_unpack _). by vm_compute.
Qed.

(** C3.  Whatever calling an attribute of the content manager would do,
    [DailyAutomation.integrate_articles] leaves every file as it was, and so
    the corpus file: [integrate_articles_to_blog] is no attribute of a
    [ContentManager], the [AttributeError] of the lookup is caught, and for
    a non-empty list of articles the only effect is the printed line
    reporting it. *)
Theorem daily_integrate_articles_writes_nothing :
  ∀ call_attribute (self : DailyAutomation) (articles : list Article) (fs : filesystem),
    let result := DailyAutomation_integrate_articles call_attribute self articles fs in
    result.1 = fs
    ∧ persisted_corpus (content_manager self) result.1
      = persisted_corpus (content_manager self) fs
    ∧ (articles ≠ [] →
       ContentManager_getattr "integrate_articles_to_blog"
       = raise (AttributeError
           (py "'ContentManager' object has no attribute 'integrate_articles_to_blog'"))
       ∧ result.2
         = [py "Error integrating articles: 'ContentManager' object has no attribute 'integrate_articles_to_blog'"]).
Proof.
  intros call_attribute self articles fs result.
  assert (H1 : result.1 = fs) by (by destruct articles).
  split; [done|]. split; [by rewrite H1|].
  intros Hne. split; [done|]. by destruct articles.
Qed.

Lemma daily_integrate_articles_writes_nothing_witness :
  let result :=
    DailyAutomation_integrate_articles
      (λ self method articles fs, ((integrate_articles self articles fs).2, None))
      DailyAutomation_init [new_article] fs_with_corpus in
  result.1 = fs_with_corpus
  ∧ result.2
    = [py "Error integrating articles: 'ContentManager' object has no attribute 'integrate_articles_to_blog'"].
Proof.
  intros result.
  destruct (daily_integrate_articles_writes_nothing
    (λ self method articles fs, ((integrate_articles self articles fs).2, None))
    DailyAutomation_init [new_article] fs_with_corpus) as (H1 & _ & H3).
  split; [exact H1|].
  apply H3. discriminate.
Defined.

(** ** article_generator.py: the assembled article *)

Lemma generate_article_ok client today paper summary n :
  p_summary paper = Some summary →
  generate_article client today paper n
  = ok (generated_article client today paper summary n, (8 + n)%nat).
Proof.
  intros Hs. unfold generate_article, _generate_background, _generate_methodology,
    _generate_results, _generate_significance, _generate_concept_explanation,
    _generate_summary, _generate_subtitle.
  rewrite Hs. reflexivity.
Qed.

(** ** C4: a failing generation call *)

Lemma rstrip_by_app f a b :
  rstrip_by f (a ++ b)
  = match rstrip_by f b with
    | [] => rstrip_by f a
    | r => a ++ r
    end.
Proof.
  induction a as [|x a IH]; simpl.
  - by destruct (rstrip_by f b).
  - rewrite IH. destruct (rstrip_by f b) as [|y r]; [done|].
    by destruct a.
Qed.

(** The placeholder after [.strip()]: the visible prefix, and the error
    detail without its trailing white space. *)
Lemma strip_error_placeholder e :
  py_strip (error_placeholder e)
  = match rstrip_by is_space e with
    | [] => py "Error generating content:"
    | detail => py "Error generating content: " ++ detail
    end.
Proof.
  unfold py_strip, strip_by, error_placeholder.
  change (lstrip_by is_space (py "Error generating content: " ++ e))
    with (py "Error generating content: " ++ e).
  rewrite rstrip_by_app. by destruct (rstrip_by is_space e).
Qed.















(** ** C5: the read time *)

Lemma py_round_div_nearest n d j :
  0 < d → Z.abs (n - d * py_round_div n d) ≤ Z.abs (n - d * j).
Proof.
  intros Hd. unfold py_round_div.
  pose proof (Z.div_mod n d ltac:(lia)) as Hn.
  pose proof (Z.mod_pos_bound n d Hd) as Hr.
  set (q := n / d) in *. set (r := n mod d) in *.
  assert (Hj : j ≤ q ∨ q + 1 ≤ j) by lia.
  destruct (Z.ltb_spec (2 * r) d), (Z.ltb_spec d (2 * r)), (Z.even q);
    destruct Hj; nia.
Qed.

(** A tie goes to the even neighbour. *)
Lemma py_round_div_tie q d :
  0 < d → py_round_div (d * (2 * q + 1)) (2 * d) = if Z.even q then q else q + 1.
Proof.
  intros Hd. unfold py_round_div.
  assert (d * (2 * q + 1) = d + q * (2 * d)) as -> by lia.
  rewrite Z.div_add, Z.mod_add by lia.
  rewrite Z.div_small, Z.mod_small by lia.
  destruct (Z.ltb_spec (2 * d) (2 * d)), (Z.ltb_spec (2 * d) (2 * d)); try lia.
  done.
Qed.

Lemma py_round_div_nonneg n d : 0 ≤ n → 0 < d → 0 ≤ py_round_div n d.
Proof.
  intros Hn Hd. unfold py_round_div.
  pose proof (Z.div_pos n d Hn Hd).
  repeat case_match; lia.
Qed.

Lemma total_words_nonneg b m r s c : 0 ≤ total_words b m r s c.
Proof. unfold total_words. lia. Qed.

(** What [generate_article] computes: the read time is made of the number
    of words of the five texts joined end to end, divided by 200, rounded to
    a nearest integer and raised to 1 when below.  It is always at least 1,
    it is 1 when the joined text has no word, and the article carries it
    as ["<n> min read"]. *)
Lemma read_time_estimate :
  (∀ background methodology results significance concept_content : pystr,
     let words :=
       Z.of_nat (length (py_words
         (background ++ methodology ++ results ++ significance ++ concept_content))) in
     let read_time :=
       estimate_read_time background methodology results significance concept_content in
     1 ≤ read_time
     ∧ (∃ k, read_time = Z.max 1 k
             ∧ ∀ j, Z.abs (words - 200 * k) ≤ Z.abs (words - 200 * j))
     ∧ (words = 0 → read_time = 1))
  ∧ estimate_read_time [] [] [] [] [] = 1
  ∧ (∀ (client : Client) (today : pystr) (paper : Paper) (summary : pystr) (n : nat),
       p_summary paper = Some summary →
       ∃ article n',
         generate_article client today paper n = ok (article, n')
         ∧ a_read_time article
           = py_str_int
               (estimate_read_time
                  (c_background (a_content article))
                  (c_methodology (a_content article))
                  (c_results (a_content article))
                  (c_significance (a_content article))
                  (ce_content (a_concept_explanation article)))
             ++ py " min read").
Proof.
  split; [|split].
  - intros b m r s c words read_time. subst read_time.
    unfold estimate_read_time, total_words. fold words.
    split; [lia|]. split.
    + exists (py_round_div words 200). split; [done|].
      intros j. by apply py_round_div_nearest.
    + intros ->. reflexivity.
  - reflexivity.
  - intros client today paper summary n Hs.
    eexists _, _. split; [by apply generate_article_ok|]. reflexivity.
Qed.

(** C5.  The read time is not made of the total word count of the five
    sections.  [generate_article] joins the five texts with nothing between
    them before it splits the result into words, and each text comes
    stripped from [_call_openai]: the last word of a section and the first
    word of the next count as one.  For a background of 61 words and four
    further sections of 60 words each, 301 words in all, the claim gives
    [round(301 / 200) = 2] minutes; the code counts 297 words and the
    article says ["1 min read"].  What the claim says of the bounds holds:
    the read time is at least 1 for all texts, and 1 for five empty
    ones. *)
Theorem read_time_misses_words_at_joints :
  let article :=
    generated_article wordy_client (py "2025-01-15") sample_paper
      (py "We study Sparse Attention.") 0%nat in
  let words text := Z.of_nat (length (py_words text)) in
  let background := c_background (a_content article) in
  let methodology := c_methodology (a_content article) in
  let results := c_results (a_content article) in
  let significance := c_significance (a_content article) in
  let concept_content := ce_content (a_concept_explanation article) in
  generate_article wordy_client (py "2025-01-15") sample_paper 0%nat
  = ok (article, 8%nat)
  ∧ words background = 61
  ∧ words methodology = 60
  ∧ words results = 60
  ∧ words significance = 60
  ∧ words concept_content = 60
  ∧ Z.max 1 (py_round_div
               (words background + words methodology + words results
                + words significance + words concept_content) 200) = 2
  ∧ total_words background methodology results significance concept_content = 297
  ∧ a_read_time article = py "1 min read"
  ∧ (∀ b m r s c : pystr, 1 ≤ estimate_read_time b m r s c)
  ∧ estimate_read_time [] [] [] [] [] = 1.
Proof.
  cbv zeta.
  split; [by apply generate_article_ok|].
  do 8 (split; [by vm_compute|]).
  split; [|reflexivity].
  intros b m r s c. unfold estimate_read_time. lia.
Qed.

(** ** Splitting *)

Lemma split_go_length sep k cur s : (1 ≤ length (split_go sep k cur s))%nat.
Proof.
  revert k cur. induction s as [|c r IH]; intros k cur; simpl; [lia|].
  destruct k; [|apply IH].
  destruct (is_prefix sep (c :: r)); [simpl; lia|apply IH].
Qed.

(** After [sep in s] the list [s.split(sep)] has an item of index 1. *)
Lemma py_split_second sep s :
  sep ≠ [] → py_contains sep s = true → (2 ≤ length (py_split sep s))%nat.
Proof.
  intros Hsep. unfold py_split. generalize (@nil ascii) as cur.
  induction s as [|c r IH]; intros cur; simpl.
  - destruct sep; [done|]. done.
  - destruct (is_prefix sep (c :: r)) eqn:E; simpl.
    + intros _. pose proof (split_go_length sep (length sep - 1) [] r). lia.
    + apply IH.
Qed.

(** Without an occurrence of [sep] the split is the string itself. *)
Lemma split_go_absent sep cur s :
  py_contains sep s = false → split_go sep 0 cur s = [reverse cur ++ s].
Proof.
  revert cur. induction s as [|c r IH]; intros cur; simpl.
  - intros _. by rewrite app_nil_r.
  - intros [Hp Hr]%orb_false_elim. rewrite Hp, (IH _ Hr).
    by rewrite reverse_cons, <- app_assoc.
Qed.

Lemma py_split_absent sep s : py_contains sep s = false → py_split sep s = [s].
Proof. apply split_go_absent. Qed.

(** ** C6: the slug of a slug *)

Lemma lower_char_idemp c : lower_char (lower_char c) = lower_char c.
Proof. by destruct c as [[|] [|] [|] [|] [|] [|] [|] [|]]. Qed.

Lemma is_dash_eq c : is_dash c = true → c = "-"%char.
Proof. apply Ascii.eqb_eq. Qed.

Lemma not_sep_not_dash c : is_dash_or_space c = false → is_dash c = false.
Proof. unfold is_dash_or_space. by destruct (is_dash c). Qed.

Lemma re_sub_runs_head c r :
  is_dash_or_space c = false → re_sub_runs (c :: r) = c :: re_sub_runs r.
Proof. intros H. simpl. by rewrite H. Qed.

Lemma re_sub_runs_well_dashed u :
  Forall (λ c, keeps_slug_char c = true ∧ lower_char c = c) u →
  well_dashed (re_sub_runs u).
Proof.
  induction 1 as [|c r [Hk Hl] Hr IH]; [done|].
  destruct (is_dash_or_space c) eqn:Hc.
  - cbn [re_sub_runs]. rewrite Hc.
    destruct r as [|c' r']; [done|].
    destruct (is_dash_or_space c') eqn:Hc'; [done|].
    split; [|done].
    rewrite re_sub_runs_head by done. by apply not_sep_not_dash.
  - rewrite re_sub_runs_head by done. split; [|done].
    rewrite (not_sep_not_dash _ Hc). done.
Qed.

Lemma lstrip_well_dashed s : well_dashed s → well_dashed (lstrip_by is_dash s).
Proof.
  induction s as [|c r IH]; [done|].
  intros [Hc Hr]. simpl. destruct (is_dash c) eqn:E; [by apply IH|].
  simpl. by rewrite E.
Qed.

Lemma lstrip_head f s : ∀ c, head (lstrip_by f s) = Some c → f c = false.
Proof.
  induction s as [|x r IH]; [done|].
  intros c. simpl. destruct (f x) eqn:E; [apply IH|].
  simpl. by intros [= <-].
Qed.

Lemma rstrip_cons_inv f s x r' :
  rstrip_by f s = x :: r' → ∃ r, s = x :: r.
Proof.
  destruct s as [|c r]; [done|]. simpl.
  destruct (rstrip_by f r); [destruct (f c)|]; intros [= <- _]; eauto.
Qed.

Lemma rstrip_well_dashed s : well_dashed s → well_dashed (rstrip_by is_dash s).
Proof.
  induction s as [|c r IH]; [done|].
  intros [Hc Hr]. specialize (IH Hr). simpl.
  destruct (rstrip_by is_dash r) as [|x r'] eqn:E.
  - destruct (is_dash c) eqn:Ec; [done|]. simpl. by rewrite Ec.
  - split; [|done].
    destruct (is_dash c); [|done].
    apply rstrip_cons_inv in E as [r0 ->]. done.
Qed.

Lemma rstrip_head f s : ∀ c, head (rstrip_by f s) = Some c → head s = Some c.
Proof.
  intros c. destruct (rstrip_by f s) as [|x r'] eqn:E; [done|].
  apply rstrip_cons_inv in E as [r0 ->]. done.
Qed.

Lemma rstrip_last f s : ∀ c, last (rstrip_by f s) = Some c → f c = false.
Proof.
  induction s as [|x r IH]; [done|].
  intros c. simpl.
  destruct (rstrip_by f r) as [|y r'] eqn:E.
  - destruct (f x) eqn:Ex; [done|]. simpl. by intros [= <-].
  - rewrite last_cons_cons. apply IH.
Qed.

Lemma slugify_is_slug t : is_slug (slugify t).
Proof.
  unfold slugify, strip_by.
  set (u := re_sub_delete_others (py_lower t)).
  assert (Hu : Forall (λ c, keeps_slug_char c = true ∧ lower_char c = c) u).
  { apply Forall_forall. intros c Hc.
    apply list_elem_of_In, List.filter_In in Hc as [Hin Hk]. split; [done|].
    apply List.in_map_iff in Hin as (c0 & <- & _). apply lower_char_idemp. }
  split; [|split].
  - by apply rstrip_well_dashed, lstrip_well_dashed, re_sub_runs_well_dashed.
  - intros c Hc. apply rstrip_head in Hc. by apply lstrip_head in Hc.
  - intros c Hc. by apply rstrip_last in Hc.
Qed.

Lemma well_dashed_char s c :
  well_dashed s → c ∈ s → c = "-"%char ∨ slug_letter c.
Proof.
  induction s as [|x r IH]; [by intros _ ?%elem_of_nil|].
  intros [Hx Hr] [->|Hin]%elem_of_cons; [|by apply IH].
  destruct (is_dash x) eqn:E; [left; by apply is_dash_eq|by right].
Qed.

Lemma is_prefix_elem p s c : is_prefix p s = true → c ∈ p → c ∈ s.
Proof.
  revert s. induction p as [|a p IH]; intros [|b s]; simpl; try done.
  - by intros _ ?%elem_of_nil.
  - intros [Hab Hp]%andb_prop [->|Hin]%elem_of_cons.
    + apply Ascii.eqb_eq in Hab as ->. left.
    + right. by apply IH.
Qed.

Lemma py_contains_elem p s c : py_contains p s = true → c ∈ p → c ∈ s.
Proof.
  induction s as [|x s IH]; simpl.
  - rewrite orb_false_r. apply is_prefix_elem.
  - intros [H|H]%orb_prop Hc; [by eapply is_prefix_elem|].
    right. by apply IH.
Qed.

Lemma slug_has_no_space s c : well_dashed s → c ∈ s → is_space c = false.
Proof.
  intros Hs Hc. destruct (well_dashed_char s c Hs Hc) as [->|(Hsep & _)]; [done|].
  unfold is_dash_or_space in Hsep. by apply orb_false_elim in Hsep as [_ ?].
Qed.

Lemma extract_paper_title_slug s : well_dashed s → extract_paper_title s = s.
Proof.
  intros Hs. unfold extract_paper_title.
  destruct (py_contains (py "Paper Explained: ") s) eqn:E; [|done].
  assert (Hin : " "%char ∈ s).
  { eapply py_contains_elem; [exact E|]. apply (bool_decide_unpack _). by vm_compute. }
  by apply (slug_has_no_space s _ Hs) in Hin.
Qed.

Lemma py_lower_slug s : well_dashed s → py_lower s = s.
Proof.
  induction s as [|c r IH]; [done|].
  intros [Hc Hr]. unfold py_lower in *. cbn [map]. rewrite (IH Hr). f_equal.
  destruct (is_dash c) eqn:E; [by apply is_dash_eq in E as ->|]. apply Hc.
Qed.

Lemma re_sub_delete_others_slug s : well_dashed s → re_sub_delete_others s = s.
Proof.
  induction s as [|c r IH]; [done|].
  intros [Hc Hr]. unfold re_sub_delete_others in *. cbn [List.filter].
  rewrite (IH Hr).
  destruct (is_dash c) eqn:E; [by apply is_dash_eq in E as ->|].
  destruct Hc as (_ & -> & _). done.
Qed.

Lemma re_sub_runs_last_of_run c c' r :
  is_dash_or_space c = true → is_dash_or_space c' = false →
  re_sub_runs (c :: c' :: r) = "-"%char :: re_sub_runs (c' :: r).
Proof. intros H H'. simpl. by rewrite H, H'. Qed.

Lemma re_sub_runs_slug s :
  well_dashed s → no_dash_at (last s) → re_sub_runs s = s.
Proof.
  induction s as [|c r IH]; [done|].
  intros [Hc Hr] Hlast.
  assert (Hr_last : no_dash_at (last r)).
  { intros x Hx. apply Hlast. destruct r; [done|]. by rewrite last_cons_cons. }
  specialize (IH Hr Hr_last).
  destruct (is_dash c) eqn:E.
  - apply is_dash_eq in E as ->.
    destruct r as [|c' r']; [by specialize (Hlast _ eq_refl)|].
    destruct Hr as [Hc' Hr']. rewrite Hc in Hc'.
    destruct Hc' as (Hsep & _).
    rewrite re_sub_runs_last_of_run by done. by rewrite IH.
  - destruct Hc as (Hsep & _). rewrite re_sub_runs_head by done. by rewrite IH.
Qed.

Lemma lstrip_by_id f s : (∀ c, head s = Some c → f c = false) → lstrip_by f s = s.
Proof. destruct s as [|c r]; [done|]. intros H. simpl. by rewrite (H c eq_refl). Qed.

Lemma rstrip_by_id f s : (∀ c, last s = Some c → f c = false) → rstrip_by f s = s.
Proof.
  induction s as [|c r IH]; [done|].
  intros H. simpl. destruct r as [|c' r'].
  - simpl. by rewrite (H c eq_refl).
  - rewrite IH; [done|]. intros x Hx. apply H. by rewrite last_cons_cons.
Qed.

Lemma slugify_slug s : is_slug s → slugify s = s.
Proof.
  intros (Hs & Hhead & Hlast). unfold slugify, strip_by.
  rewrite py_lower_slug, re_sub_delete_others_slug, re_sub_runs_slug by done.
  rewrite lstrip_by_id by done. by apply rstrip_by_id.
Qed.

(** C6.  [_create_article_id] is a function of the title alone, and
    applying it to its own result changes nothing: the slug of a title has
    no space, so it holds no ["Paper Explained: "] to cut at, and it is
    already lower-cased, free of other characters, singly dashed and
    trimmed. *)
Theorem create_article_id_idempotent :
  ∀ title : pystr,
    _create_article_id (_create_article_id title) = _create_article_id title.
Proof.
  intros title. unfold _create_article_id at 1.
  pose proof (slugify_is_slug (extract_paper_title title)) as Hslug.
  fold (_create_article_id title) in Hslug.
  rewrite extract_paper_title_slug by apply Hslug.
  by apply slugify_slug.
Qed.

(** ** C7: the title cut at its first dash *)

(** C7.  For the paper "Vision Transformers - A Survey" the generator builds the
    title ["Paper Explained: Vision Transformers - A Survey - A Beginner's
    Guide"]; [_create_article_id] keeps only what stands before the first
    [" - "] and gives ["vision-transformers"], where stripping the prefix
    and the trailing suffix gives ["vision-transformers-a-survey"]. *)
Theorem create_article_id_cuts_at_first_dash :
  (∃ article n',
     generate_article answering_client (py "2025-01-15") dashed_paper 0%nat
     = ok (article, n')
     ∧ a_title article
       = py "Paper Explained: Vision Transformers - A Survey - A Beginner's Guide")
  ∧ extract_paper_title
      (py "Paper Explained: Vision Transformers - A Survey - A Beginner's Guide")
    = py "Vision Transformers"
  ∧ _create_article_id
      (py "Paper Explained: Vision Transformers - A Survey - A Beginner's Guide")
    = py "vision-transformers"
  ∧ spec_article_id
      (py "Paper Explained: Vision Transformers - A Survey - A Beginner's Guide")
    = py "vision-transformers-a-survey".
Proof.
  split; [|by vm_compute].
  eexists _, _. split; [by apply generate_article_ok|]. reflexivity.
Qed.

(** *** Where the two ids agree *)



Lemma py_contains_absent_char sub s c :
  c ∈ sub → c ∉ s → py_contains sub s = false.
Proof.
  intros Hsub Hs. destruct (py_contains sub s) eqn:E; [|done].
  destruct Hs. by eapply py_contains_elem.
Qed.





(** ** C8: ids in the corpus *)

(** C8 as stated fails: two articles whose titles give the same slug are
    both persisted, under the same id. *)
Lemma integrate_articles_duplicate_ids :
  ∃ e1 e2,
    persisted_corpus sample_manager
      (integrate_articles sample_manager [article_upper; article_lower] ∅).2
    = Some [e1; e2]
    ∧ e_title e1 ≠ e_title e2
    ∧ e_id e1 = e_id e2.
Proof.
  exists (article_data article_upper), (article_data article_lower).
  split; [apply integrate_articles_corpus|].
  split; [|by vm_compute].
  intros H. vm_compute in H. discriminate.
Qed.

(** C8, amended.  [integrate_articles] keeps every article it is given as
    one entry of the persisted corpus, in order, and gives each entry the
    slug of its own title as id; it compares no ids, so the ids of the
    corpus are pairwise distinct exactly when the slugs of the given titles
    are. *)
Theorem integrate_articles_ids :
  ∀ self articles fs,
    ∃ corpus,
      persisted_corpus self (integrate_articles self articles fs).2 = Some corpus
      ∧ length corpus = length articles
      ∧ e_id <$> corpus = (λ a, _create_article_id (a_title a)) <$> articles
      ∧ e_title <$> corpus = a_title <$> articles
      ∧ (NoDup (e_id <$> corpus)
         ↔ NoDup ((λ a, _create_article_id (a_title a)) <$> articles)).
Proof.
  intros self articles fs. exists (article_data <$> articles).
  assert (Hid : e_id <$> (article_data <$> articles)
                = (λ a, _create_article_id (a_title a)) <$> articles)
    by (by rewrite <- list_fmap_compose).
  split; [apply integrate_articles_corpus|].
  split; [by rewrite length_fmap|].
  split; [done|].
  split; [by rewrite <- list_fmap_compose|].
  by rewrite Hid.
Qed.

(** ** C9: the article for the seed paper *)

(** C9.  On the seed record of "Attention Is All You Need" (id 1706.03762,
    category foundation-models) [generate_article] raises
    [KeyError: 'summary'] while it builds its first prompt, whatever the
    generation service answers: the record keeps the abstract under
    ['abstract'].  No article is produced, [create_sample_article] returns
    [None] for that id and writes nothing, and the same holds for every seed
    paper. *)
Theorem generate_article_classic_attention_raises :
  ∀ (client : Client) (today : pystr) (n : nat),
    p_id classic_attention = py "1706.03762"
    ∧ p_title classic_attention = py "Attention Is All You Need"
    ∧ p_category classic_attention = py "foundation-models"
    ∧ generate_article client today classic_attention n = raise (KeyError (py "summary"))
    ∧ (∀ fs, create_sample_article client today n (py "1706.03762") fs = (None, fs))
    ∧ Forall
        (λ paper, generate_article client today paper n = raise (KeyError (py "summary")))
        classic_papers.
Proof.
  intros client today n.
  do 4 (split; [reflexivity|]).
  split; [done|].
  unfold classic_papers. repeat (constructor; [reflexivity|]). constructor.
Qed.

(** With a ['summary'] in the record, the article for "Attention Is All You
    Need" has the title and the category of the scenario, whatever the
    service answers. *)
Lemma generate_article_attention_with_summary (client : Client) today paper summary n :
  p_title paper = py "Attention Is All You Need" →
  p_category paper = py "foundation-models" →
  p_summary paper = Some summary →
  ∃ article n',
    generate_article client today paper n = ok (article, n')
    ∧ a_category article = py "Foundation Models"
    ∧ a_title article = py "Paper Explained: Attention Is All You Need - A Beginner's Guide".
Proof.
  intros Ht Hc Hs. eexists _, _.
  split; [by apply generate_article_ok|].
  cbn [generated_article a_category a_title]. rewrite Ht, Hc. done.
Qed.

(** ** C10: a failing paper source *)

Lemma py_slice_to_nil {A} n : py_slice_to (@nil A) n = [].
Proof. unfold py_slice_to. destruct (n <? 0); apply take_nil. Qed.

Lemma select_new_papers_nil existing_ids limit :
  select_new_papers existing_ids [] limit = [].
Proof. apply py_slice_to_nil. Qed.

(** C10.  [search_papers] returns a list and never raises.  It returns the
    empty list whenever its [try] block raises, and so when the request
    raises (the source cannot be reached), when the response carries an
    error status, and when the body does not parse as XML.  [search_recent_papers] returns the empty list when each of its
    searches fails before it yields a result.  On an empty candidate list
    [find_new_papers] selects nothing, and the run goes on to its normal
    end. *)
Theorem search_papers_empty_on_failure :
  (∀ requests_get fromstring query max_results category,
     let result := search_papers requests_get fromstring query max_results category in
     let params := search_params query max_results category in
     (∀ e, search_papers_body requests_get fromstring query max_results category
           = raise e → result = [])
     ∧ (∀ e, requests_get base_url params = raise e → result = [])
     ∧ (∀ response e,
          requests_get base_url params = mret response →
          status_error response = Some e → result = [])
     ∧ (∀ response e,
          requests_get base_url params = mret response →
          status_error response = None →
          fromstring (content response) = raise e → result = []))
  ∧ (∀ arxiv_search end_date query max_results days_back,
       (∀ search_query n, ∃ e, arxiv_search search_query n = ([], Some e)) →
       EnhancedArxivFetcher.search_recent_papers
         arxiv_search end_date query max_results days_back = [])
  ∧ (∀ self existing_articles, find_new_papers self existing_articles [] = []).
Proof.
  split; [|split].
  - intros requests_get fromstring query max_results category result params.
    subst result. unfold search_papers, search_papers_body. fold params.
    split; [|split; [|split]].
    + intros e He. unfold search_papers_body in He. fold params in He.
      by rewrite He.
    + intros e ->. done.
    + intros response e -> He. cbn. unfold raise_for_status. by rewrite He.
    + intros response e -> Hs He. cbn. unfold raise_for_status. rewrite Hs. cbn.
      by rewrite He.
  - intros arxiv_search end_date query max_results days_back Hfail.
    unfold EnhancedArxivFetcher.search_recent_papers.
    assert (Hq : ∀ q, EnhancedArxivFetcher.papers_of_query arxiv_search end_date
                        q max_results days_back = []).
    { intros q. unfold EnhancedArxivFetcher.papers_of_query.
      destruct (Hfail q (max_results / 3 + 5)) as [e ->]. done. }
    cbn [fmap list_fmap]. rewrite !Hq. cbn. apply py_slice_to_nil.
  - intros self existing_articles. apply select_new_papers_nil.
Qed.

Lemma search_papers_empty_on_failure_witness :
  search_papers unreachable_get strict_fromstring (py "transformer attention") 5
    (Some (py "cs.LG")) = []
  ∧ search_papers error_status_get strict_fromstring (py "transformer attention") 5
      (Some (py "cs.LG")) = []
  ∧ search_papers garbage_get strict_fromstring (py "transformer attention") 5
      (Some (py "cs.LG")) = []
  ∧ EnhancedArxivFetcher.search_recent_papers unreachable_search 0
      (py "transformer OR attention") 20 7 = [].
Proof.
  pose proof search_papers_empty_on_failure as [Hsearch [Hrecent _]].
  split; [|split; [|split]].
  - eapply (proj1 (proj2 (Hsearch unreachable_get strict_fromstring _ _ _))).
    reflexivity.
  - eapply (proj1 (proj2 (proj2 (Hsearch error_status_get strict_fromstring _ _ _))));
      reflexivity.
  - eapply (proj2 (proj2 (proj2 (Hsearch garbage_get strict_fromstring _ _ _))));
      reflexivity.
  - apply Hrecent. intros search_query n. eexists. reflexivity.
Defined.

(** ** The models at work *)

(** The words at the joints of the five texts run together. *)
Example total_words_joins_texts :
  total_words (py "one two") (py "three four") [] [] [] = 3
  ∧ Z.of_nat (length (py_words (py "one two")))
    + Z.of_nat (length (py_words (py "three four"))) = 4.
Proof. by vm_compute. Qed.

Example py_round_div_examples :
  py_round_div 99 200 = 0 ∧ py_round_div 100 200 = 0 ∧ py_round_div 101 200 = 1
  ∧ py_round_div 300 200 = 2 ∧ py_round_div 500 200 = 2 ∧ py_round_div 501 200 = 3.
Proof. by vm_compute. Qed.

(** An entry that does not parse is left out; the others are returned. *)
Example search_papers_skips_malformed_entries :
  search_papers answering_get (λ _, mret sample_feed) (py "attention") 5 None
  = [ {| pp_id := py "2501.00001v1";
         pp_title := py "Sparse Attention";
         pp_authors := [Some (py "A. Author")];
         pp_abstract := py "We study sparse attention.";
         pp_published := py "2025-01-15";
         pp_category := py "applications";
         pp_url := py "https://arxiv.org/abs/2501.00001v1";
         pp_arxiv_categories := [Some (py "cs.RO"); Some (py "cs.LG")] |} ].
Proof. by vm_compute. Qed.

(** The ids that [get_existing_paper_ids] finds. *)
Example get_existing_paper_ids_example :
  get_existing_paper_ids
    [ {| sa_paper_id := Some (py "2501.00001"); sa_url := None |};
      {| sa_paper_id := None; sa_url := Some (py "https://arxiv.org/abs/1706.03762") |};
      {| sa_paper_id := None; sa_url := None |} ]
  = {[ py "2501.00001"; py "1706.03762" ]}.
Proof. apply set_eq. intros x. cbn. set_solver. Qed.

(** * Further properties *)

(** ** Categories *)

Lemma attrib_get_value d k v : attrib_get d k = Some v → v ∈ d.*2.
Proof.
  induction d as [|[k' v'] d IH]; [done|]. simpl.
  destruct (decide (k' = k)) as [->|]; [intros [= ->]; left|right; auto].
Qed.

(** Membership in a list of literals, by evaluation. *)
Ltac by_evaluation := apply (bool_decide_unpack _); by vm_compute.

(** X1.  A category slug that goes through [_format_category] and back
    through [_get_category_slug] is unchanged when it is one of the five
    slugs of the blog, and becomes ['basic-concepts'] otherwise; likewise a
    display name that goes through [_get_category_slug] and back is unchanged
    when it is one of the five names and becomes ['Basic Concepts']
    otherwise. *)
Theorem category_round_trip :
  (∀ slug,
     _get_category_slug (_format_category slug)
     = if decide (slug ∈ category_slugs) then slug else py "basic-concepts")
  ∧ (∀ name,
       _format_category (_get_category_slug name)
       = if decide (name ∈ category_names) then name else py "Basic Concepts").
Proof.
  split.
  - intros slug. unfold _format_category, category_slugs. cbn [dict_get].
    repeat (destruct (decide (_ = slug)) as [<-|];
            [by rewrite decide_True by by_evaluation|]).
    rewrite decide_False; [done|].
    intros Hin. repeat (apply elem_of_cons in Hin as [->|Hin]; [done|]).
    by apply elem_of_nil in Hin.
  - intros name. unfold _get_category_slug, category_names. cbn [dict_get].
    repeat (destruct (decide (_ = name)) as [<-|];
            [by rewrite decide_True by by_evaluation|]).
    rewrite decide_False; [done|].
    intros Hin. repeat (apply elem_of_cons in Hin as [->|Hin]; [done|]).
    by apply elem_of_nil in Hin.
Qed.

Lemma map_category_slug (arxiv_categories : list (option pystr)) :
  _map_category arxiv_categories
  ∈ [py "foundation-models"; py "basic-concepts"; py "applications"].
Proof.
  induction arxiv_categories as [|cat rest IH]; [set_solver|].
  cbn [_map_category]. destruct cat as [cat|]; cbn [mbind option_bind]; [|exact IH].
  destruct (attrib_get _ cat) as [blog_category|] eqn:E; [|exact IH].
  apply attrib_get_value in E. cbn [fmap list_fmap snd] in E.
  repeat (apply elem_of_cons in E as [->|E]; [by_evaluation|]).
  by apply elem_of_nil in E.
Qed.

(** X2.  Whatever categories the feed gives an entry, the blog category
    that [ArxivFetcher._map_category] picks is one of the slugs the
    generator and the content manager know: its display name leads back to
    it. *)
Theorem map_category_known (arxiv_categories : list (option pystr)) :
  _map_category arxiv_categories ∈ category_slugs
  ∧ _get_category_slug (_format_category (_map_category arxiv_categories))
    = _map_category arxiv_categories.
Proof.
  pose proof (map_category_slug arxiv_categories) as H.
  split.
  - repeat (apply elem_of_cons in H as [->|H]; [by_evaluation|]).
    by apply elem_of_nil in H.
  - repeat (apply elem_of_cons in H as [->|H]; [by vm_compute|]).
    by apply elem_of_nil in H.
Qed.

(** X3.  The enhanced fetcher files robotics, human-computer interaction
    and quantitative biology under ['ai-applications'], a slug that
    [_format_category] does not know: the blog category of a result is
    ['foundation-models'], ['basic-concepts'] or ['ai-applications'], and
    the article of such a paper is displayed under "Foundation Models" in
    the first case and under "Basic Concepts" in the other two, never under
    "Applications". *)
Theorem enhanced_map_category_display (arxiv_categories : list pystr) :
  let slug := EnhancedArxivFetcher._map_category arxiv_categories in
  slug ∈ [py "foundation-models"; py "basic-concepts"; py "ai-applications"]
  ∧ _format_category slug
    = (if decide (slug = py "foundation-models") then py "Foundation Models"
       else py "Basic Concepts")
  ∧ _format_category slug ≠ py "Applications".
Proof.
  intros slug.
  assert (H : slug ∈ [py "foundation-models"; py "basic-concepts"; py "ai-applications"]).
  { subst slug. induction arxiv_categories as [|cat rest IH]; [set_solver|].
    cbn [EnhancedArxivFetcher._map_category].
    destruct (attrib_get _ cat) as [blog_category|] eqn:E; [|done].
    apply attrib_get_value in E. cbn [fmap list_fmap snd] in E.
    repeat (apply elem_of_cons in E as [->|E]; [by_evaluation|]).
    by apply elem_of_nil in E. }
  split; [done|].
  clearbody slug.
  repeat (apply elem_of_cons in H as [->|H]; [by vm_compute|]).
  by apply elem_of_nil in H.
Qed.

(** ** The shape of an article id *)

Lemma slug_letter_word c :
  slug_letter c → is_word c = true ∧ lower_char c = c ∧ is_space c = false.
Proof.
  intros (Hsep & Hkeep & Hlow). unfold is_dash_or_space in Hsep.
  apply orb_false_elim in Hsep as [Hd Hs].
  unfold keeps_slug_char in Hkeep. rewrite Hd, Hs, !orb_false_r in Hkeep. done.
Qed.

Lemma well_dashed_no_double_dash s :
  well_dashed s → py_contains (py "--") s = false.
Proof.
  induction s as [|c r IH]; [done|].
  intros [Hc Hr]. cbn [py_contains]. rewrite (IH Hr), orb_false_r.
  cbn [py list_ascii_of_string is_prefix].
  destruct r as [|c' r']; [by rewrite andb_false_r|].
  unfold is_dash, ch_eqb in *. rewrite (Ascii.eqb_sym "-" c), (Ascii.eqb_sym "-" c').
  destruct (Ascii.eqb c "-"); [|done]. by rewrite Hc.
Qed.

(** X4.  The id that [_create_article_id] gives a title is URL-friendly, as
    its docstring says: it is made of dashes and of lower-cased word
    characters only, it holds no white space, no two dashes follow each
    other, and it neither starts nor ends with a dash. *)
Theorem create_article_id_url_friendly (title : pystr) :
  let id := _create_article_id title in
  (∀ c, c ∈ id → c = "-"%char ∨ (is_word c = true ∧ lower_char c = c))
  ∧ (∀ c, c ∈ id → is_space c = false)
  ∧ py_contains (py "--") id = false
  ∧ head id ≠ Some "-"%char
  ∧ last id ≠ Some "-"%char.
Proof.
  intros id.
  destruct (slugify_is_slug (extract_paper_title title)) as (Hwd & Hhead & Hlast).
  fold (_create_article_id title) in Hwd, Hhead, Hlast. fold id in Hwd, Hhead, Hlast.
  split; [|split; [|split; [|split]]].
  - intros c Hc. destruct (well_dashed_char id c Hwd Hc) as [->|Hl]; [by left|].
    right. by apply slug_letter_word in Hl as (? & ? & _).
  - intros c Hc. by apply (slug_has_no_space id).
  - by apply well_dashed_no_double_dash.
  - intros H. by specialize (Hhead _ H).
  - intros H. by specialize (Hlast _ H).
Qed.

Lemma is_word_lower_char c : is_word (lower_char c) = is_word c.
Proof. by destruct c as [[|] [|] [|] [|] [|] [|] [|] [|]]. Qed.

Lemma re_sub_runs_all_separators u :
  Forall (λ c, is_dash_or_space c = true) u →
  re_sub_runs u = match u with [] => [] | _ => ["-"%char] end.
Proof.
  induction 1 as [|c r Hc Hr IH]; [done|].
  cbn [re_sub_runs]. rewrite Hc. destruct r as [|c' r']; [done|].
  inversion_clear Hr as [|? ? Hc' _]. rewrite Hc'. exact IH.
Qed.

(** X5.  A title without any word character (letters, digits, underscore)
    gets the empty id: nothing in [_create_article_id] or in
    [integrate_articles] guards against it. *)
Theorem create_article_id_without_words (title : pystr) :
  Forall (λ c, is_word c = false) title → _create_article_id title = [].
Proof.
  intros Hw. unfold _create_article_id, extract_paper_title.
  rewrite (py_contains_absent_char _ _ "P"%char).
  2:{ by_evaluation. }
  2:{ intros Hin. by apply (proj1 (Forall_forall _ _) Hw) in Hin. }
  unfold slugify.
  assert (Hsep : Forall (λ c, is_dash_or_space c = true)
                   (re_sub_delete_others (py_lower title))).
  { apply Forall_forall. intros c Hc.
    apply list_elem_of_In, List.filter_In in Hc as [Hin Hk].
    apply List.in_map_iff in Hin as (c0 & <- & Hin0).
    apply list_elem_of_In in Hin0.
    apply (proj1 (Forall_forall _ _) Hw) in Hin0.
    unfold keeps_slug_char in Hk. rewrite is_word_lower_char, Hin0 in Hk.
    unfold is_dash_or_space. by rewrite orb_comm. }
  rewrite (re_sub_runs_all_separators _ Hsep).
  by destruct (re_sub_delete_others (py_lower title)).
Qed.

Lemma create_article_id_without_words_witness :
  _create_article_id (py "?! -- ...") = [].
Proof.
  apply create_article_id_without_words.
  repeat constructor.
Defined.



(** ** Splitting and joining *)

Lemma split_go_skip sep k cur s :
  split_go sep k cur s = split_go sep 0 cur (drop k s).
Proof.
  revert k. induction s as [|c r IH]; intros [|k]; try done.
  cbn [split_go drop]. apply IH.
Qed.

Lemma is_prefix_drop p s : is_prefix p s = true → s = p ++ drop (length p) s.
Proof.
  revert s. induction p as [|a p IH]; intros [|b s]; simpl; try done.
  intros [Hab Hp]%andb_prop. apply Ascii.eqb_eq in Hab as ->.
  f_equal. by apply IH.
Qed.

Lemma py_join_cons sep x l : l ≠ [] → py_join sep (x :: l) = x ++ sep ++ py_join sep l.
Proof. by destruct l. Qed.

Lemma py_join_split_go sep cur s :
  sep ≠ [] → py_join sep (split_go sep 0 cur s) = reverse cur ++ s.
Proof.
  intros Hsep.
  remember (length s) as n eqn:Hn.
  assert (Hle : (length s ≤ n)%nat) by lia. clear Hn.
  revert s cur Hle. induction n as [|n IH]; intros s cur Hle.
  - destruct s; [|simpl in Hle; lia]. simpl. by rewrite app_nil_r.
  - destruct s as [|c r]; [simpl; by rewrite app_nil_r|].
    simpl in Hle. cbn [split_go].
    destruct (is_prefix sep (c :: r)) eqn:E.
    + rewrite py_join_cons.
      2:{ pose proof (split_go_length sep (length sep - 1) [] r) as Hl.
          intros Heq. rewrite Heq in Hl. simpl in Hl. lia. }
      rewrite split_go_skip, IH by (rewrite length_drop; lia).
      rewrite (is_prefix_drop _ _ E) at 1.
      destruct sep as [|a sep']; [done|].
      cbn [length drop app].
      replace (S (length sep') - 1)%nat with (length sep') by lia. done.
    + rewrite IH by lia. by rewrite reverse_cons, <- app_assoc.
Qed.

(** [sep.join(s.split(sep)) == s] *)
Lemma py_join_split sep s : sep ≠ [] → py_join sep (py_split sep s) = s.
Proof. intros. unfold py_split. by rewrite py_join_split_go. Qed.

(** ** The excerpt *)

Lemma is_prefix_app_r p a b : is_prefix p a = true → is_prefix p (a ++ b) = true.
Proof.
  revert a. induction p as [|c p IH]; intros [|x a]; cbn [is_prefix app]; try done.
  intros [-> Hp]%andb_true_iff. cbn [andb]. by apply IH.
Qed.

Lemma split_go_first_piece sep cur s p q rest :
  sep ≠ [] →
  split_go sep 0 cur s = p :: q :: rest →
  ∃ s0, p = reverse cur ++ s0 ∧ s0 `prefix_of` s ∧ py_contains sep s0 = false.
Proof.
  intros Hsep. revert cur. induction s as [|c r IH]; intros cur; cbn [split_go]; [done|].
  destruct (is_prefix sep (c :: r)) eqn:E.
  - intros [= <- _]. exists []. rewrite app_nil_r. split; [done|].
    split; [apply prefix_nil|]. by destruct sep.
  - intros (s0 & -> & Hpre & Hno)%IH. exists (c :: s0).
    split; [by rewrite reverse_cons, <- app_assoc|].
    split; [by apply prefix_cons|].
    cbn [py_contains]. rewrite Hno, orb_false_r.
    destruct Hpre as [tail ->].
    destruct (is_prefix sep (c :: s0)) eqn:E'; [|done].
    apply (is_prefix_app_r _ _ tail) in E'. cbn [app] in E'. congruence.
Qed.

(** X7.  [_create_excerpt] on a background with a sentence break [". "]
    returns the first two pieces of the split of the text at [". "], joined
    by a break and closed with a full stop, however long they are: the first
    piece holds no break, and the two with the break between them stand at
    the start of the text.  Without a sentence break it returns the text
    itself when it has at most 200 characters, and its first 200 characters
    followed by ["..."] otherwise. *)
Theorem create_excerpt_cases (background : pystr) :
  (py_contains (py ". ") background = true →
   ∃ s0 s1 rest,
     py_split (py ". ") background = s0 :: s1 :: rest
     ∧ _create_excerpt background = s0 ++ py ". " ++ s1 ++ py "."
     ∧ (s0 ++ py ". " ++ s1) `prefix_of` background
     ∧ py_contains (py ". ") s0 = false)
  ∧ (py_contains (py ". ") background = false →
     _create_excerpt background
     = (if (200 <? length background)%nat
        then take 200 background ++ py "..."
        else background)
     ∧ (length (_create_excerpt background) ≤ 203)%nat).
Proof.
  split.
  - intros Hc. unfold _create_excerpt.
    pose proof (py_split_second (py ". ") background ltac:(done) Hc) as Hlen.
    pose proof (py_join_split (py ". ") background ltac:(done)) as Hjoin.
    pose proof (split_go_first_piece (py ". ") [] background) as Hfirst.
    fold (py_split (py ". ") background) in Hfirst.
    destruct (py_split (py ". ") background) as [|s0 [|s1 rest]].
    { simpl in Hlen. lia. }
    { simpl in Hlen. lia. }
    exists s0, s1, rest. split; [done|]. split; [done|]. split.
    + rewrite <- Hjoin. rewrite py_join_cons by done.
      destruct rest as [|s2 rest].
      * exists []. cbn [py_join]. by rewrite !app_nil_r.
      * rewrite py_join_cons by done.
        exists (py ". " ++ py_join (py ". ") (s2 :: rest)).
        by rewrite <- !app_assoc.
    + destruct (Hfirst s0 s1 rest ltac:(done) eq_refl) as (s0' & -> & _ & Hno).
      by rewrite reverse_nil.
  - intros Hc. unfold _create_excerpt. rewrite (py_split_absent _ _ Hc).
    split; [done|].
    destruct (Nat.ltb_spec 200 (length background)).
    + rewrite length_app, length_take.
      change (length (py "...")) with 3%nat. lia.
    + lia.
Qed.

Lemma create_excerpt_cases_witness :
  _create_excerpt (py "Models were slow. Training took weeks. Then came attention.")
  = py "Models were slow. Training took weeks."
  ∧ (∃ s0 s1 rest,
       py_split (py ". ") (py "Models were slow. Training took weeks. Then came attention.")
       = s0 :: s1 :: rest
       ∧ _create_excerpt (py "Models were slow. Training took weeks. Then came attention.")
         = s0 ++ py ". " ++ s1 ++ py "."
       ∧ (s0 ++ py ". " ++ s1)
         `prefix_of` py "Models were slow. Training took weeks. Then came attention."
       ∧ py_contains (py ". ") s0 = false)
  ∧ _create_excerpt (py "One sentence only.") = py "One sentence only.".
Proof.
  split; [reflexivity|]. split.
  - apply (proj1 (create_excerpt_cases _)). reflexivity.
  - apply (proj2 (create_excerpt_cases (py "One sentence only."))). reflexivity.
Defined.

(** ** The files that integration writes *)

Lemma path_join_inj a b b' :
  is_prefix (py "/") b = false → is_prefix (py "/") b' = false →
  path_join a b = path_join a b' → b = b'.
Proof.
  intros Hb Hb'. rewrite !path_join_relative by done.
  intros H. by apply app_inv_head, app_inv_head in H.
Qed.

Lemma integrate_articles_lookup self articles fs path :
  (integrate_articles self articles fs).2 !! path
  = if decide (path ∈ written_paths self)
    then (integrate_articles self articles ∅).2 !! path
    else fs !! path.
Proof.
  unfold integrate_articles, _update_react_components,
    _update_category_page_component, _update_article_page_component,
    _update_homepage_component, write_file. cbn [snd].
  fold (data_loader_path self) (homepage_path self) (article_page_path self)
    (category_page_path self).
  rewrite !lookup_insert. unfold written_paths.
  repeat case_decide; subst; try done;
    match goal with
    | H : ¬ _ ∈ _ |- _ => destruct H; rewrite !elem_of_cons; tauto
    | H : _ ∈ _ |- _ =>
        rewrite !elem_of_cons, elem_of_nil in H; intuition congruence
    end.
Qed.

Lemma written_paths_differ self :
  articles_file self ≠ data_loader_path self
  ∧ articles_file self ≠ homepage_path self
  ∧ articles_file self ≠ article_page_path self
  ∧ articles_file self ≠ category_page_path self
  ∧ data_loader_path self ≠ homepage_path self
  ∧ data_loader_path self ≠ article_page_path self
  ∧ data_loader_path self ≠ category_page_path self
  ∧ homepage_path self ≠ article_page_path self
  ∧ homepage_path self ≠ category_page_path self
  ∧ article_page_path self ≠ category_page_path self.
Proof.
  assert (Hn : last (articles_file self) = Some "n"%char)
    by (by apply path_join_last).
  assert (Hs : last (data_loader_path self) = Some "s"%char)
    by (by apply path_join_last).
  assert (Hh : last (homepage_path self) = Some "x"%char)
    by (by apply path_join_last).
  assert (Ha : last (article_page_path self) = Some "x"%char)
    by (by apply path_join_last).
  assert (Hc : last (category_page_path self) = Some "x"%char)
    by (by apply path_join_last).
  repeat split; intros H;
    try (rewrite H in *; congruence);
    apply path_join_inj in H; done.
Qed.

(** X8.  [integrate_articles] touches no path but its five: the corpus file
    and the data loader, both in [src/data], and the three page components
    in [src/components].  The five are different paths, and every other
    path holds afterwards what it held before.  The corpus file and the
    data loader, written first and into the directory that the manager
    creates, hold the entries of the given articles and the text of the
    loader. *)
Theorem integrate_articles_writes_five_files
    (self : ContentManager) (articles : list Article) (fs : filesystem) :
  let fs' := (integrate_articles self articles fs).2 in
  NoDup (written_paths self)
  ∧ fs' !! articles_file self = Some (ArticlesJson (article_data <$> articles))
  ∧ fs' !! data_loader_path self = Some (SourceText data_loader_content)
  ∧ (∀ path, path ∉ written_paths self → fs' !! path = fs !! path).
Proof.
  intros fs'. subst fs'.
  destruct (written_paths_differ self)
    as (N1 & N2 & N3 & N4 & N5 & N6 & N7 & N8 & N9 & N10).
  split.
  { unfold written_paths. repeat (apply NoDup_cons; split);
      rewrite ?not_elem_of_cons; try apply NoDup_nil_2;
      repeat split; try apply not_elem_of_nil; congruence. }
  unfold integrate_articles, _update_react_components,
    _update_category_page_component, _update_article_page_component,
    _update_homepage_component, write_file. cbn [snd].
  fold (data_loader_path self) (homepage_path self) (article_page_path self)
    (category_page_path self).
  repeat split.
  - rewrite !lookup_insert. repeat case_decide; congruence.
  - rewrite !lookup_insert. repeat case_decide; congruence.
  - intros path Hp. unfold written_paths in Hp.
    rewrite !lookup_insert.
    repeat case_decide; try done; subst; destruct Hp;
      rewrite !elem_of_cons; tauto.
Qed.

Lemma integrate_articles_writes_five_files_witness :
  (py "package.json" ∉ written_paths sample_manager)
  ∧ ((integrate_articles sample_manager [new_article] fs_with_corpus).2
       !! py "package.json")
    = (fs_with_corpus !! py "package.json").
Proof.
  assert (H : py "package.json" ∉ written_paths sample_manager) by by_evaluation.
  split; [exact H|].
  destruct (integrate_articles_writes_five_files sample_manager [new_article]
              fs_with_corpus) as (_ & _ & _ & Hrest).
  exact (Hrest (py "package.json") H).
Defined.

(** X9.  Integrating the same articles a second time changes nothing: the
    files after the second run are the files after the first, and the
    entries returned are the same. *)
Theorem integrate_articles_twice
    (self : ContentManager) (articles : list Article) (fs : filesystem) :
  integrate_articles self articles (integrate_articles self articles fs).2
  = integrate_articles self articles fs.
Proof.
  apply injective_projections; [done|].
  apply map_eq. intros path.
  rewrite (integrate_articles_lookup self articles (integrate_articles self articles fs).2).
  case_decide as Hin; [|done].
  rewrite (integrate_articles_lookup self articles fs). by rewrite decide_True.
Qed.

(** ** The daily run *)















(** ** The relevance score *)

Lemma foldl_bounds {A} (f : Z → A → Z) (m : Z) (l : list A) (acc : Z) :
  (∀ a x, a ≤ f a x ≤ a + m) →
  acc ≤ foldl f acc l ≤ acc + m * Z.of_nat (length l).
Proof.
  intros Hf. revert acc. induction l as [|x l IH]; intros acc; [simpl; lia|].
  cbn [foldl length]. specialize (IH (f acc x)). specialize (Hf acc x).
  assert (0 ≤ m) by lia. nia.
Qed.

Lemma foldl_ge {A} (f : Z → A → Z) (l : list A) (acc : Z) :
  (∀ a y, a ≤ f a y) → acc ≤ foldl f acc l.
Proof.
  intros Hf. revert acc. induction l as [|x l IH]; intros acc; [done|].
  cbn [foldl]. etrans; [apply (Hf acc x)|apply IH].
Qed.

Lemma foldl_gain {A} (f : Z → A → Z) (g : Z) (l : list A) (acc : Z) (x : A) :
  (∀ a y, a ≤ f a y) → x ∈ l → (∀ a, a + g ≤ f a x) → acc + g ≤ foldl f acc l.
Proof.
  intros Hge Hin Hx. revert acc.
  induction l as [|y l IH]; intros acc; [by apply elem_of_nil in Hin|].
  cbn [foldl]. apply elem_of_cons in Hin as [<-|Hin].
  - etrans; [apply Hx|]. by apply foldl_ge.
  - etrans; [|by apply IH]. specialize (Hge acc y). lia.
Qed.

Lemma relevant_category_elem (result : EnhancedArxivFetcher.ArxivResult) :
  has_relevant_category result = true →
  ∃ cat,
    cat ∈ [py "cs.AI"; py "cs.LG"; py "cs.CV"; py "cs.CL"; py "cs.NE"; py "stat.ML"]
    ∧ cat ∈ EnhancedArxivFetcher.r_categories result.
Proof.
  unfold has_relevant_category. cbv zeta. intros H.
  apply existsb_exists in H as (cat & Hin & Hcat).
  exists cat. split; [by apply list_elem_of_In|].
  unfold EnhancedArxivFetcher.py_in in Hcat. by apply bool_decide_eq_true in Hcat.
Qed.

Lemma relevant_category_score
    (now : Z) (result : EnhancedArxivFetcher.ArxivResult) :
  has_relevant_category result = true →
  5 ≤ EnhancedArxivFetcher._calculate_relevance_score now result.
Proof.
  intros (cat & Hcat & Hin)%relevant_category_elem.
  unfold EnhancedArxivFetcher._calculate_relevance_score. cbv zeta.
  match goal with
  | |- context [foldl ?f2 (foldl ?f1 0 ?cats) ?kws] =>
      assert (Hc : 0 + 5 ≤ foldl f1 0 cats);
      [ apply (foldl_gain f1 5 cats 0 cat);
        [ intros; cbv beta; repeat case_match; lia
        | done
        | intros a; cbv beta;
          repeat (apply elem_of_cons in Hcat as [->|Hcat];
                  [ repeat case_match; try lia;
                    match goal with
                    | H : EnhancedArxivFetcher.py_in _ _ = false |- _ =>
                        vm_compute in H; discriminate
                    end |]);
          by apply elem_of_nil in Hcat ]
      | pose proof (foldl_ge f2 kws (foldl f1 0 cats)
                      ltac:(intros; cbv beta; repeat case_match; lia)) as Hk;
        set (K := foldl f2 (foldl f1 0 cats) kws) in *;
        set (C := foldl f1 0 cats) in * ]
  end.
  repeat case_match; lia.
Qed.

(** X14.  The relevance score is never negative and never more than 10 for
    each category of the paper plus 64 (19 keywords in the title, the
    recency bonus and the length bonus); a paper with one of the six
    relevant categories scores at least 5. *)
Theorem calculate_relevance_score_bounds
    (now : Z) (result : EnhancedArxivFetcher.ArxivResult) :
  let score := EnhancedArxivFetcher._calculate_relevance_score now result in
  0 ≤ score
  ∧ score ≤ 10 * Z.of_nat (length (EnhancedArxivFetcher.r_categories result)) + 64
  ∧ (has_relevant_category result = true → 5 ≤ score).
Proof.
  cbv zeta. split; [|split; [|apply relevant_category_score]].
  all: unfold EnhancedArxivFetcher._calculate_relevance_score; cbv zeta.
  all: match goal with
       | |- context [foldl ?f2 (foldl ?f1 0 ?cats) ?kws] =>
           pose proof (foldl_bounds f1 10 cats 0
                         ltac:(intros; cbv beta; repeat case_match; lia)) as Hc;
           pose proof (foldl_bounds f2 3 kws (foldl f1 0 cats)
                         ltac:(intros; cbv beta; repeat case_match; lia)) as Hk;
           set (K := foldl f2 (foldl f1 0 cats) kws) in *;
           set (C := foldl f1 0 cats) in *
       end.
  all: cbn [length] in Hk; repeat case_match; lia.
Qed.

Lemma calculate_relevance_score_bounds_witness :
  has_relevant_category sample_result = true
  ∧ 5 ≤ EnhancedArxivFetcher._calculate_relevance_score 1736935200000000 sample_result.
Proof.
  assert (H : has_relevant_category sample_result = true) by reflexivity.
  split; [exact H|].
  destruct (calculate_relevance_score_bounds 1736935200000000 sample_result)
    as (_ & _ & Hscore).
  exact (Hscore H).
Defined.

(** ** Entries of the feed *)

Lemma replace_newlines_no_newline s : chr 10 ∉ replace_newlines s.
Proof.
  unfold replace_newlines. intros Hin. apply list_elem_of_In, in_map_iff in Hin.
  destruct Hin as (c & Hc & _).
  destruct (ch_eqb c (chr 10)) eqn:E; [discriminate|].
  apply Ascii.eqb_neq in E. congruence.
Qed.

Lemma split_go_char_free c cur s :
  c ∉ cur → Forall (λ piece, c ∉ piece) (split_go [c] 0 cur s).
Proof.
  revert cur. induction s as [|x r IH]; intros cur Hcur.
  - cbn [split_go]. constructor; [|constructor]. by rewrite elem_of_reverse.
  - cbn [split_go is_prefix length Nat.sub]. rewrite andb_true_r.
    destruct (ch_eqb c x) eqn:E.
    + constructor; [by rewrite elem_of_reverse|]. apply IH. apply not_elem_of_nil.
    + apply IH. apply Ascii.eqb_neq in E. rewrite not_elem_of_cons. by split.
Qed.

Lemma py_index_elem {A} (l : list A) i x : py_index l i = Some x → x ∈ l.
Proof.
  unfold py_index. repeat case_match; try done; apply list_elem_of_lookup_2.
Qed.

Lemma last_piece_char_free c s : c ∉ default [] (py_index (py_split [c] s) (-1)).
Proof.
  destruct (py_index _ _) as [piece|] eqn:E; [|apply not_elem_of_nil].
  apply py_index_elem in E. cbn [default].
  pose proof (split_go_char_free c [] s (not_elem_of_nil c)) as H.
  rewrite Forall_forall in H. by apply H.
Qed.

Lemma mapM_raises_length {A B} (f : A → raises B) l k :
  mapM f l = inr k → length k = length l.
Proof.
  revert k. induction l as [|x l IH]; intros k; cbn [mapM].
  - by intros [= <-].
  - unfold mbind, raises_bind, bind_raises, mret, raises_ret.
    destruct (f x) as [e|y]; [done|].
    destruct (mapM f l) as [e|k']; [done|].
    intros [= <-]. cbn [length]. f_equal. by apply IH.
Qed.

Lemma mapM_raises_inl {A B} (f : A → raises B) l :
  (∃ e, mapM f l = inl e) ↔ Exists (λ x, ∃ e, f x = inl e) l.
Proof.
  induction l as [|x l IH]; cbn [mapM].
  - split; [by intros [e ?]|by intros ?%Exists_nil].
  - rewrite Exists_cons, <- IH.
    unfold mbind, raises_bind, bind_raises, mret, raises_ret.
    destruct (f x) as [e|y]; [split; eauto|].
    destruct (mapM f l) as [e|k'].
    + split; eauto.
    + split; [by intros [e ?]|]. by intros [[e ?]|[e ?]].
Qed.

(** X15.  A paper that [_parse_entry] returns is well formed: its title and
    its abstract hold no line break, its date is at most ten characters
    long, its id holds no slash, its address is the arXiv address of that
    id, it has one author for each author element of the entry, and its
    blog category is one of ['foundation-models'], ['basic-concepts'] and
    ['applications']. *)
Theorem parse_entry_well_formed (entry : Element) (paper : ParsedPaper) :
  _parse_entry entry = Some paper →
  (chr 10 ∉ pp_title paper)
  ∧ (chr 10 ∉ pp_abstract paper)
  ∧ (length (pp_published paper) ≤ 10)%nat
  ∧ ("/"%char ∉ pp_id paper)
  ∧ pp_url paper = py "https://arxiv.org/abs/" ++ pp_id paper
  ∧ length (pp_authors paper) = length (findall entry (atom "author"))
  ∧ pp_category paper
    ∈ [py "foundation-models"; py "basic-concepts"; py "applications"].
Proof.
  unfold _parse_entry, parse_entry_body.
  unfold mbind, raises_bind, bind_raises, mret, raises_ret.
  destruct (find_text entry (atom "title")) as [e|[title|]]; [done| |done].
  destruct (find_text entry (atom "summary")) as [e|[abstract|]]; [done| |done].
  destruct (find_text entry (atom "published")) as [e|[published|]]; [done| |done].
  destruct (find_text entry (atom "id")) as [e|[arxiv_url|]]; [done| |done].
  cbn [attr_of mret raises_ret].
  destruct (mapM _ (findall entry (atom "author"))) as [e|authors] eqn:Ha; [done|].
  intros [= <-]. cbn [pp_title pp_abstract pp_published pp_id pp_url pp_authors pp_category].
  repeat split.
  - apply replace_newlines_no_newline.
  - apply replace_newlines_no_newline.
  - pose proof (py_slice_to_length published 10). lia.
  - apply (last_piece_char_free "/"%char).
  - by apply mapM_raises_length in Ha.
  - apply map_category_slug.
Qed.

Lemma parse_entry_well_formed_witness :
  _parse_entry good_entry = Some parsed_good_entry
  ∧ "/"%char ∉ pp_id parsed_good_entry.
Proof.
  assert (H : _parse_entry good_entry = Some parsed_good_entry) by reflexivity.
  split; [exact H|].
  apply (parse_entry_well_formed good_entry parsed_good_entry H).
Defined.

(** X16.  [_parse_entry] gives up on an entry, returning [None], exactly
    when the entry lacks a title, summary, published or id element with a
    text, or has an author element without a name element.  Categories
    without a term and authors with an empty name do not matter. *)
Theorem parse_entry_none_iff (entry : Element) :
  _parse_entry entry = None
  ↔ Exists (λ tag, find entry tag ≫= el_text = None) required_elements
    ∨ Exists (λ author, find author (atom "name") = None)
        (findall entry (atom "author")).
Proof.
  unfold _parse_entry, parse_entry_body, required_elements.
  rewrite !Exists_cons, Exists_nil.
  unfold find_text.
  pose proof (mapM_raises_inl
                (λ author, attr_of "text" (find author (atom "name")) el_text)
                (findall entry (atom "author"))) as Hauthors.
  assert (Hname : Exists (λ x, ∃ e, attr_of "text" (find x (atom "name")) el_text = inl e)
                    (findall entry (atom "author"))
                  ↔ Exists (λ author, find author (atom "name") = None)
                      (findall entry (atom "author"))).
  { apply Exists_proper; [|done]. intros author.
    destruct (find author (atom "name")) as [name|]; cbn [attr_of].
    - split; [by intros [e ?]|done].
    - split; [done|]. intros _. by eexists. }
  rewrite Hname in Hauthors. clear Hname.
  unfold mbind at 1 2 3 4 5 6 7 8, raises_bind, bind_raises, mret, raises_ret.
  destruct (find entry (atom "title")) as [[? ? [title|] ?]|];
    cbn [attr_of el_text mbind option_bind mret raises_ret raise]; try tauto.
  destruct (find entry (atom "summary")) as [[? ? [abstract|] ?]|];
    cbn [attr_of el_text mbind option_bind mret raises_ret raise]; try tauto.
  destruct (find entry (atom "published")) as [[? ? [published|] ?]|];
    cbn [attr_of el_text mbind option_bind mret raises_ret raise]; try tauto.
  destruct (find entry (atom "id")) as [[? ? [arxiv_url|] ?]|];
    cbn [attr_of el_text mbind option_bind mret raises_ret raise]; try tauto.
  destruct (mapM _ (findall entry (atom "author"))) as [e|authors].
  - split; [|done]. intros _. right. apply Hauthors. eauto.
  - split; [done|]. intros [H|H]; [by intuition|].
    apply Hauthors in H as [e ?]. done.
Qed.

(** ** Searching for recent papers *)

Lemma paper_data_relevant now result :
  has_relevant_category result = true →
  has_summary (EnhancedArxivFetcher.paper_data now result) = true
  ∧ 5 ≤ relevance_score (EnhancedArxivFetcher.paper_data now result).
Proof.
  intros H. split; [done|].
  unfold relevance_score, EnhancedArxivFetcher.paper_data.
  cbn [p_relevance_score default].
  by apply relevant_category_score.
Qed.

Lemma paper_id_no_slash now result :
  "/"%char ∉ p_id (EnhancedArxivFetcher.paper_data now result).
Proof. apply (last_piece_char_free "/"%char). Qed.

Lemma papers_of_query_elem arxiv_search end_date search_query max_results days_back p :
  p ∈ EnhancedArxivFetcher.papers_of_query arxiv_search end_date search_query
        max_results days_back →
  ∃ result now,
    has_relevant_category result = true
    ∧ end_date - days_back * EnhancedArxivFetcher.micros_per_day
      ≤ EnhancedArxivFetcher.dt_micros (EnhancedArxivFetcher.r_published result)
    ∧ p = EnhancedArxivFetcher.paper_data now result.
Proof.
  unfold EnhancedArxivFetcher.papers_of_query. cbv zeta.
  intros ([result now] & _ & Hp)%list_elem_of_omap.
  exists result, now. unfold has_relevant_category. cbv zeta.
  destruct (existsb _ _); [|done].
  destruct (Z.leb_spec (end_date - days_back * EnhancedArxivFetcher.micros_per_day)
              (EnhancedArxivFetcher.dt_micros (EnhancedArxivFetcher.r_published result)));
    [|done].
  cbn [andb] in Hp. by injection Hp as <-.
Qed.

Lemma unique_by_id_spec seen papers :
  NoDup (p_id <$> EnhancedArxivFetcher.unique_by_id seen papers)
  ∧ ∀ p, p ∈ EnhancedArxivFetcher.unique_by_id seen papers →
         p ∈ papers ∧ p_id p ∉ seen.
Proof.
  revert seen. induction papers as [|paper rest IH]; intros seen;
    cbn [EnhancedArxivFetcher.unique_by_id].
  - split; [constructor|]. by intros p ?%elem_of_nil.
  - case_decide as Hin.
    + destruct (IH seen) as [Hnd Hel]. split; [done|].
      intros p Hp. apply Hel in Hp as [? ?]. split; [by right|done].
    + destruct (IH ({[p_id paper]} ∪ seen)) as [Hnd Hel]. split.
      * rewrite fmap_cons. constructor; [|done].
        intros (q & Hq & Hqin)%list_elem_of_fmap.
        apply Hel in Hqin as [_ Hq']. apply Hq'.
        apply elem_of_union_l, elem_of_singleton. done.
      * intros p [->|Hp]%elem_of_cons; [split; [by left|done]|].
        apply Hel in Hp as [? Hp']. split; [by right|].
        intros ?. apply Hp'. by apply elem_of_union_r.
Qed.

Lemma search_recent_papers_elem arxiv_search end_date query max_results days_back p :
  p ∈ EnhancedArxivFetcher.search_recent_papers arxiv_search end_date query
        max_results days_back →
  ∃ result now,
    has_relevant_category result = true
    ∧ end_date - days_back * EnhancedArxivFetcher.micros_per_day
      ≤ EnhancedArxivFetcher.dt_micros (EnhancedArxivFetcher.r_published result)
    ∧ p = EnhancedArxivFetcher.paper_data now result.
Proof.
  unfold EnhancedArxivFetcher.search_recent_papers. cbv zeta.
  match goal with
  | |- context [py_slice_to ?l _] => destruct (py_slice_to_take l max_results) as [k ->]
  end.
  intros Hp. apply subseteq_take in Hp. rewrite py_sort_desc_perm in Hp.
  apply unique_by_id_spec in Hp as [Hp _].
  apply list_elem_of_join in Hp as (papers & Hp & Hpapers).
  apply list_elem_of_fmap in Hpapers as (search_query & -> & _).
  by apply papers_of_query_elem in Hp.
Qed.

Lemma search_recent_papers_NoDup arxiv_search end_date query max_results days_back :
  NoDup (p_id <$> EnhancedArxivFetcher.search_recent_papers arxiv_search end_date
                    query max_results days_back).
Proof.
  unfold EnhancedArxivFetcher.search_recent_papers. cbv zeta.
  match goal with
  | |- context [py_slice_to ?l _] => destruct (py_slice_to_take l max_results) as [k ->]
  end.
  rewrite fmap_take. eapply sublist_NoDup; [|apply sublist_take].
  rewrite py_sort_desc_perm. apply unique_by_id_spec.
Qed.

(** X17.  The papers that [search_recent_papers] returns have distinct ids
    and stand in the order of their relevance scores, highest first.  Each
    of them was made of a result with one of the six relevant categories,
    published no longer than [days_back] days before the call: it carries a
    ['summary'], its score is at least 5 and its id holds no slash.  For a
    [max_results] that is not negative there are at most [max_results] of
    them. *)
Theorem search_recent_papers_result
    (arxiv_search : pystr → Z → list (EnhancedArxivFetcher.ArxivResult * Z) * option exn)
    (end_date : Z) (query : pystr) (max_results days_back : Z) :
  let papers :=
    EnhancedArxivFetcher.search_recent_papers arxiv_search end_date query
      max_results days_back in
  NoDup (p_id <$> papers)
  ∧ StronglySorted (λ p q, relevance_score q ≤ relevance_score p) papers
  ∧ Forall
      (λ p,
         (∃ result now,
            has_relevant_category result = true
            ∧ end_date - days_back * EnhancedArxivFetcher.micros_per_day
              ≤ EnhancedArxivFetcher.dt_micros (EnhancedArxivFetcher.r_published result)
            ∧ p = EnhancedArxivFetcher.paper_data now result)
         ∧ has_summary p = true
         ∧ 5 ≤ relevance_score p
         ∧ ("/"%char ∉ p_id p))
      papers
  ∧ (0 ≤ max_results → Z.of_nat (length papers) ≤ max_results).
Proof.
  intros papers. split; [apply search_recent_papers_NoDup|]. split; [|split].
  - subst papers. unfold EnhancedArxivFetcher.search_recent_papers. cbv zeta.
    match goal with
    | |- context [py_slice_to ?l _] => destruct (py_slice_to_take l max_results) as [k ->]
    end.
    apply StronglySorted_take.
    eapply StronglySorted_mono;
      [|apply (py_sort_desc_sorted Z.leb relevance_score Zleb_total Zleb_trans)].
    intros a b Hab. unfold desc in Hab. lia.
  - apply Forall_forall. intros p Hp.
    destruct (search_recent_papers_elem _ _ _ _ _ _ Hp) as (result & now & Hrel & Hdate & ->).
    split; [by exists result, now|].
    destruct (paper_data_relevant now result Hrel) as [? ?].
    split; [done|]. split; [done|]. apply paper_id_no_slash.
  - intros Hmax. by apply py_slice_to_length.
Qed.

Lemma search_recent_papers_result_witness :
  0 ≤ 20
  ∧ Z.of_nat (length (EnhancedArxivFetcher.search_recent_papers answering_search
                        1736935200000000 (py "attention") 20 7)) ≤ 20.
Proof.
  assert (H : 0 ≤ 20) by lia.
  split; [exact H|].
  destruct (search_recent_papers_result answering_search 1736935200000000
              (py "attention") 20 7) as (_ & _ & _ & Hlength).
  exact (Hlength H).
Defined.

(** ** Searching by topic *)

Lemma topic_loop_closed_form max_results papers yielded :
  (length papers < Z.to_nat (Z.max 1 max_results))%nat →
  topic_loop max_results papers yielded
  = if decide (Z.to_nat (Z.max 1 max_results)
               ≤ length papers + length (relevant_papers yielded))%nat
    then (take (Z.to_nat (Z.max 1 max_results)) (papers ++ relevant_papers yielded), true)
    else (papers ++ relevant_papers yielded, false).
Proof.
  revert papers. induction yielded as [|[result now] rest IH]; intros papers Hlen.
  - cbn [topic_loop relevant_papers omap list_omap length].
    rewrite decide_False by lia. by rewrite app_nil_r.
  - cbn [topic_loop]. unfold relevant_papers. cbn [omap list_omap].
    fold (relevant_papers rest).
    destruct (has_relevant_category result); [|by apply IH].
    rewrite length_app. cbn [length].
    destruct (Z.leb_spec max_results (Z.of_nat (length papers + 1))) as [Hle|Hgt].
    + rewrite decide_True by lia. f_equal. symmetry.
      rewrite cons_middle, (assoc_L (++)).
      apply take_app_length'. rewrite length_app. cbn [length]. lia.
    + rewrite IH by (rewrite length_app; cbn [length]; lia).
      rewrite length_app. cbn [length].
      rewrite <- (assoc_L (++)). cbn [app].
      repeat case_decide; try done; lia.
Qed.

(** X18.  [search_papers_by_topic] in closed form.  Of the results that the
    search yields, those with a relevant category count.  When there are at
    least [max_results] of them (at least one, for a [max_results] below
    1), the first [max_results] (the first one) are returned, and the
    search is not asked for more, so that an exception it would raise
    later does no harm.  Otherwise all of them are returned, unless the
    search ends with an exception: then the papers collected are dropped
    and the list is empty. *)
Theorem search_papers_by_topic_closed_form
    (arxiv_search_by_relevance :
       pystr → Z → list (EnhancedArxivFetcher.ArxivResult * Z) * option exn)
    (topic : pystr) (max_results : Z) :
  let search := arxiv_search_by_relevance topic (max_results * 2) in
  let relevant := relevant_papers search.1 in
  let wanted := Z.to_nat (Z.max 1 max_results) in
  search_papers_by_topic arxiv_search_by_relevance topic max_results
  = if decide (wanted ≤ length relevant)%nat then take wanted relevant
    else match search.2 with
         | Some _ => []
         | None => relevant
         end.
Proof.
  cbv zeta. unfold search_papers_by_topic.
  destruct (arxiv_search_by_relevance topic (max_results * 2)) as [yielded raised].
  cbn [fst snd].
  rewrite topic_loop_closed_form by (cbn [length]; lia).
  cbn [length app Nat.add]. by case_decide.
Qed.

(** ** The recent papers of the plain fetcher *)

Lemma recent_loop_elem requests_get fromstring categories i p :
  p ∈ recent_loop requests_get fromstring categories i →
  ∃ j category,
    categories !! j = Some category
    ∧ p ∈ search_papers (requests_get (i + j)%nat) fromstring
            (py "cat:" ++ category) 20 None.
Proof.
  revert i. induction categories as [|category rest IH]; intros i;
    cbn [recent_loop]; [by intros ?%elem_of_nil|].
  cbv zeta. intros [Hp|Hp]%elem_of_app.
  - exists 0%nat, category. split; [done|]. by rewrite Nat.add_0_r.
  - apply IH in Hp as (j & c & Hj & Hp). exists (S j), c. split; [done|].
    by replace (i + S j)%nat with (S i + j)%nat by lia.
Qed.

(** X19.  [get_recent_papers] returns at most ten papers, the latest
    publication date first, and each of them is a paper that the search of
    one of the categories returned; without [categories] the four default
    categories are searched, one request each. *)
Theorem get_recent_papers_result
    (requests_get : nat → pystr → list (pystr * pystr) → raises Response)
    (fromstring : pystr → raises Element)
    (days : Z) (categories : option (list pystr)) :
  let searched :=
    default [py "cs.LG"; py "cs.CL"; py "cs.CV"; py "cs.AI"] categories in
  let papers := get_recent_papers requests_get fromstring days categories in
  (length papers ≤ 10)%nat
  ∧ StronglySorted (λ p q, str_leb (pp_published q) (pp_published p) = true) papers
  ∧ Forall
      (λ p, ∃ j category,
         searched !! j = Some category
         ∧ p ∈ search_papers (requests_get j) fromstring (py "cat:" ++ category) 20 None)
      papers.
Proof.
  intros searched papers. subst papers. unfold get_recent_papers. cbv zeta.
  assert (Hsearched :
            match categories with
            | Some categories => categories
            | None => [py "cs.LG"; py "cs.CL"; py "cs.CV"; py "cs.AI"]
            end = searched) by (by destruct categories).
  rewrite Hsearched. clearbody searched.
  split; [|split].
  - pose proof (py_slice_to_length
                  (py_sort_desc str_leb pp_published
                     (recent_loop requests_get fromstring searched 0)) 10).
    lia.
  - destruct (py_slice_to_take
                (py_sort_desc str_leb pp_published
                   (recent_loop requests_get fromstring searched 0)) 10) as [k ->].
    apply StronglySorted_take.
    apply (py_sort_desc_sorted str_leb pp_published str_leb_total str_leb_trans).
  - apply Forall_forall. intros p Hp.
    destruct (py_slice_to_take
                (py_sort_desc str_leb pp_published
                   (recent_loop requests_get fromstring searched 0)) 10) as [k Hk].
    rewrite Hk in Hp. apply subseteq_take in Hp. rewrite py_sort_desc_perm in Hp.
    by apply recent_loop_elem in Hp.
Qed.

(** ** From the search to the saved files *)






(** ** Generating from the plain fetcher *)



